(** * Stripe webhook endpoint of the web application

    Shallow embedding of [apps/web/src/pages/api/stripe/webhook/index.ts]:
    the request handler [handler] and the subscription reconciler
    [handleCustomerSubscriptionUpdated], together with the persistence
    layer they drive (Prisma tables as finite maps), and the properties
    the specification states about them. *)

From stdpp Require Import base option gmap strings list fin_maps.
From Stdlib Require Import ZArith DecimalString.

Local Open Scope string_scope.
Local Open Scope list_scope.
Local Open Scope Z_scope.

(** ** Enumerations of [@documenso/prisma/client] *)

Inductive SubscriptionStatus := ACTIVE | PAST_DUE | INACTIVE.
Inductive DocumentDataType := BYTES_64.
Inductive DocumentStatus := COMPLETED.
Inductive FieldType := SIGNATURE.
Inductive ReadStatus := OPENED.
Inductive SendStatus := SENT.
Inductive SigningStatus := SIGNED.

(** ** Rows of the tables the endpoint touches

    Only the columns the endpoint reads or writes are kept.  Identifiers
    generated by the database are natural numbers; [User.id] is the
    integer the checkout session refers to.  Nullable columns are
    [option]s; timestamps are milliseconds since the epoch. *)

Record User := {
  user_id : Z;
  user_name : option string;
  user_email : string;
}.

Record Subscription := {
  sub_id : nat;
  sub_userId : Z;
  sub_createdAt : Z;
  sub_planId : string;
  sub_status : SubscriptionStatus;
  sub_cancelAtPeriodEnd : bool;
  sub_periodEnd : Z;
  sub_updatedAt : Z;
}.

Record DocumentData := {
  dd_type : DocumentDataType;
  dd_data : string;
  dd_initialData : string;
}.

Record Document := {
  doc_title : string;
  doc_status : DocumentStatus;
  doc_userId : Z;
  doc_documentDataId : nat;
}.

Record Recipient := {
  rcp_name : string;
  rcp_email : string;
  rcp_token : string;
  rcp_signedAt : Z;
  rcp_readStatus : ReadStatus;
  rcp_sendStatus : SendStatus;
  rcp_signingStatus : SigningStatus;
  rcp_documentId : nat;
}.

Record Field := {
  fld_documentId : nat;
  fld_recipientId : nat;
  fld_type : FieldType;
  fld_page : Z;
  fld_positionX : Z;
  fld_positionY : Z;
  fld_inserted : bool;
  fld_customText : string;
}.

Record Signature := {
  sig_fieldId : nat;
  sig_recipientId : nat;
  sig_signatureImageAsBase64 : option string;
  sig_typedSignature : option string;
}.

(** The [data] argument of [prisma.subscription.update]. *)
Record SubscriptionUpdateInput := {
  upd_planId : string;
  upd_status : SubscriptionStatus;
  upd_cancelAtPeriodEnd : bool;
  upd_periodEnd : Z;
  upd_updatedAt : Z;
}.

(** ** The database

    Every table is a finite map from its unique key to the row:
    [subscriptions] is keyed by [customerId] (the unique column the
    reconciler selects on), the others by their primary key. *)

Record Db := {
  users : gmap Z User;
  subscriptions : gmap string Subscription;
  documentDatas : gmap nat DocumentData;
  documents : gmap nat Document;
  recipients : gmap nat Recipient;
  fields : gmap nat Field;
  signatures : gmap nat Signature;
}.

(** Calls made to the persistence layer and to the cache, in the order
    they are issued.  A call is recorded when it is issued, also when it
    then fails. *)

Inductive Call :=
| UserFindFirst (id : Z)
| SubscriptionUpdate (customerId : string) (data : SubscriptionUpdateInput)
| DocumentDataCreate (id : nat) (row : DocumentData)
| DocumentCreate (id : nat) (row : Document)
| RecipientCreate (id : nat) (row : Recipient)
| FieldCreate (id : nat) (row : Field)
| SignatureCreate (id : nat) (row : Signature)
| DocumentUpdateData (id : nat) (data : string)
| RedisGet (key : string).

Record World := {
  db : Db;
  calls : list Call;
  console : list (list string);
}.

(** ** Stripe objects *)

Inductive CustomerRef :=
| CustomerId (id : string)
| CustomerObject (id : string).

Record StripeSubscription := {
  customer : CustomerRef;
  plan_id : string;
  status : string;
  cancel_at_period_end : bool;
  current_period_end : Z;
}.

Record StripeSession := {
  metadata : option (gmap string string);
  client_reference_id : option string;
}.

Inductive StripeObject :=
| SubscriptionObject (s : StripeSubscription)
| SessionObject (s : StripeSession)
| OtherObject.

Record StripeEvent := {
  type : string;
  data_object : StripeObject;
}.

(** ** Requests, responses, failures *)

Inductive HeaderValue :=
| HeaderString (s : string)
| HeaderList (l : list string).

Record NextApiRequest := {
  headers : gmap string HeaderValue;
  raw_body : string;
}.

Record NextApiResponse := {
  res_status : Z;
  res_success : bool;
  res_message : string;
}.

Inductive Error :=
| StripeSignatureVerificationError
| TypeError
| PrismaValidationError
| RecordNotFound
| DocumentHasNoData (documentId : nat)
| FileReadError
| PdfError.

Inductive Outcome (A : Type) :=
| Returned (a : A)
| Threw (e : Error).
Arguments Returned {A} a.
Arguments Threw {A} e.

(** ** The effect monad

    A computation transforms the world and either returns or throws.  A
    throw keeps the world reached so far: nothing is rolled back. *)

Definition M (A : Type) : Type := World → Outcome A * World.

#[global] Instance M_ret : MRet M := λ A a w, (Returned a, w).
#[global] Instance M_bind : MBind M := λ A B f m w,
  match m w with
  | (Returned a, w') => f a w'
  | (Threw e, w') => (Threw e, w')
  end.

Definition throw {A} (e : Error) : M A := λ w, (Threw e, w).

Definition get_db : M Db := λ w, (Returned (db w), w).

Definition put_db (d : Db) : M unit := λ w,
  (Returned tt, {| db := d; calls := calls w; console := console w |}).

Definition record_call (c : Call) : M unit := λ w,
  (Returned tt, {| db := db w; calls := calls w ++ [c]; console := console w |}).

(** [const log = (...args) => console.log('[stripe]', ...args)] *)
Definition log (args : list string) : M unit := λ w,
  (Returned tt,
   {| db := db w; calls := calls w; console := console w ++ ["[stripe]" :: args] |}).

(** JavaScript truthiness of a string: the empty string is falsy. *)
Definition truthy (s : string) : bool :=
  match s with
  | EmptyString => false
  | String _ _ => true
  end.

(** ** Subscription reconciler (lines 213-237) *)

(** [match(subscription.status).with('active', ..).with('past_due', ..).otherwise(..)] *)
Definition matchStatus (s : string) : SubscriptionStatus :=
  if String.eqb s "active" then ACTIVE
  else if String.eqb s "past_due" then PAST_DUE
  else INACTIVE.

(** [typeof subscription.customer === 'string'
      ? subscription.customer : subscription.customer.id] *)
Definition customerIdOf (c : CustomerRef) : string :=
  match c with
  | CustomerId id => id
  | CustomerObject id => id
  end.

(** Replacing one table of the database. *)
Definition with_subscriptions (d : Db) (t : gmap string Subscription) : Db :=
  {| users := users d; subscriptions := t; documentDatas := documentDatas d;
     documents := documents d; recipients := recipients d; fields := fields d;
     signatures := signatures d |}.

Definition with_documentDatas (d : Db) (t : gmap nat DocumentData) : Db :=
  {| users := users d; subscriptions := subscriptions d; documentDatas := t;
     documents := documents d; recipients := recipients d; fields := fields d;
     signatures := signatures d |}.

Definition with_documents (d : Db) (t : gmap nat Document) : Db :=
  {| users := users d; subscriptions := subscriptions d; documentDatas := documentDatas d;
     documents := t; recipients := recipients d; fields := fields d;
     signatures := signatures d |}.

Definition with_recipients (d : Db) (t : gmap nat Recipient) : Db :=
  {| users := users d; subscriptions := subscriptions d; documentDatas := documentDatas d;
     documents := documents d; recipients := t; fields := fields d;
     signatures := signatures d |}.

Definition with_fields (d : Db) (t : gmap nat Field) : Db :=
  {| users := users d; subscriptions := subscriptions d; documentDatas := documentDatas d;
     documents := documents d; recipients := recipients d; fields := t;
     signatures := signatures d |}.

Definition with_signatures (d : Db) (t : gmap nat Signature) : Db :=
  {| users := users d; subscriptions := subscriptions d; documentDatas := documentDatas d;
     documents := documents d; recipients := recipients d; fields := fields d;
     signatures := t |}.

(** The columns of [data] replace those of the row; the others stay. *)
Definition apply_update (data : SubscriptionUpdateInput) (row : Subscription) : Subscription :=
  {| sub_id := sub_id row;
     sub_userId := sub_userId row;
     sub_createdAt := sub_createdAt row;
     sub_planId := upd_planId data;
     sub_status := upd_status data;
     sub_cancelAtPeriodEnd := upd_cancelAtPeriodEnd data;
     sub_periodEnd := upd_periodEnd data;
     sub_updatedAt := upd_updatedAt data |}.

(** [prisma.subscription.update({ where: { customerId }, data })]:
    without a matching row the call fails and nothing is written. *)
Definition prisma_subscription_update
    (customerId : string) (data : SubscriptionUpdateInput) : M unit :=
  record_call (SubscriptionUpdate customerId data);;
  d ← get_db;
  match subscriptions d !! customerId with
  | None => throw RecordNotFound
  | Some row =>
      put_db (with_subscriptions d (<[customerId := apply_update data row]> (subscriptions d)))
  end.

(** The key the database gives a new row: one no row of the table has. *)
Definition nextId {A} (t : gmap nat A) : nat := fresh (dom t).

Definition prisma_user_findFirst (id : option Z) : M (option User) :=
  match id with
  | None => throw PrismaValidationError
  | Some id =>
      record_call (UserFindFirst id);;
      d ← get_db;
      mret (users d !! id)
  end.

Definition prisma_documentData_create (row : DocumentData) : M nat :=
  d ← get_db;
  let id := nextId (documentDatas d) in
  record_call (DocumentDataCreate id row);;
  put_db (with_documentDatas d (<[id := row]> (documentDatas d)));;
  mret id.

(** [prisma.document.create({ data, include: { documentData: true } })] *)
Definition prisma_document_create (row : Document) : M (nat * option DocumentData) :=
  d ← get_db;
  let id := nextId (documents d) in
  record_call (DocumentCreate id row);;
  put_db (with_documents d (<[id := row]> (documents d)));;
  mret (id, documentDatas d !! doc_documentDataId row).

Definition prisma_recipient_create (row : Recipient) : M nat :=
  d ← get_db;
  let id := nextId (recipients d) in
  record_call (RecipientCreate id row);;
  put_db (with_recipients d (<[id := row]> (recipients d)));;
  mret id.

Definition prisma_field_create (row : Field) : M (nat * Field) :=
  d ← get_db;
  let id := nextId (fields d) in
  record_call (FieldCreate id row);;
  put_db (with_fields d (<[id := row]> (fields d)));;
  mret (id, row).

Definition prisma_signature_create (row : Signature) : M nat :=
  d ← get_db;
  let id := nextId (signatures d) in
  record_call (SignatureCreate id row);;
  put_db (with_signatures d (<[id := row]> (signatures d)));;
  mret id.

(** [prisma.document.update({ where: { id }, data: { documentData: { update: { data } } } })] *)
Definition prisma_document_update (id : nat) (data : string) : M unit :=
  record_call (DocumentUpdateData id data);;
  d ← get_db;
  match documents d !! id with
  | None => throw RecordNotFound
  | Some doc =>
      match documentDatas d !! doc_documentDataId doc with
      | None => throw RecordNotFound
      | Some dd =>
          put_db (with_documentDatas d
                    (<[doc_documentDataId doc :=
                         {| dd_type := dd_type dd; dd_data := data;
                            dd_initialData := dd_initialData dd |}]> (documentDatas d)))
      end
  end.

(** ** What the endpoint takes from outside

    The Stripe verifier, the cache, the file system, the PDF routines of
    [@documenso/lib], the random source and the clock are not part of the
    endpoint.  [None] stands for a call that throws. *)

Record Env := {
  (** [process.env.NEXT_PRIVATE_STRIPE_WEBHOOK_SECRET] *)
  webhookSecret : option string;
  (** [stripe.webhooks.constructEvent(body, sig, secret)] *)
  constructEvent : string → string → option string → option StripeEvent;
  (** [Number(x)] when it is an integer, which Prisma accepts for an
      [Int] column; [None] when it is not (NaN, a fraction) *)
  Number_ : option string → option Z;
  (** contents of the cache [redis.get] reads *)
  redis : gmap string string;
  (** [readFileSync(path).toString('base64')] *)
  readFileSync : string → option string;
  (** [insertImageInPDF(pdfAsBase64, image, x, y, page)] *)
  insertImageInPDF : string → string → Z → Z → Z → option string;
  (** [insertTextInPDF(pdfAsBase64, text, x, y, page)] *)
  insertTextInPDF : string → string → Z → Z → Z → option string;
  (** [randomBytes(16).toString('hex')] *)
  randomToken : string;
  (** [new Date()] *)
  now : Z;
}.

Definition or_throw {A} (e : Error) (o : option A) : M A :=
  match o with
  | Some a => mret a
  | None => throw e
  end.

Definition redis_get (env : Env) (key : string) : M (option string) :=
  record_call (RedisGet key);;
  mret (redis env !! key).

Definition json (st : Z) (success : bool) (message : string) : NextApiResponse :=
  {| res_status := st; res_success := success; res_message := message |}.

(** [const { plan } = subscription; ... await prisma.subscription.update(..)] *)
Definition handleCustomerSubscriptionUpdated (env : Env) (subscription : StripeSubscription)
    : M unit :=
  let customerId := customerIdOf (customer subscription) in
  let status := matchStatus (status subscription) in
  prisma_subscription_update customerId
    {| upd_planId := plan_id subscription;
       upd_status := status;
       upd_cancelAtPeriodEnd := cancel_at_period_end subscription;
       upd_periodEnd := current_period_end subscription * 1000;
       upd_updatedAt := now env |}.

(** ** Document provisioner (lines 77-196) *)

(** [session.metadata?.key] *)
Definition metadata_get (session : StripeSession) (key : string) : option string :=
  match metadata session with
  | Some md => md !! key
  | None => None
  end.

(** [session.metadata?.signatureText || user.name] *)
Definition signatureTextOf (session : StripeSession) (user : User) : option string :=
  match metadata_get session "signatureText" with
  | Some t => if truthy t then Some t else user_name user
  | None => user_name user
  end.

(** Lines 91-99: the image the cache holds for the session's reference,
    [''] when there is no reference or the cache gives nothing. *)
Definition resolveSignatureDataUrl (env : Env) (session : StripeSession) : M string :=
  match metadata_get session "signatureDataUrl" with
  | Some ref =>
      if truthy ref then
        result ← redis_get env ("signature:" +:+ ref);
        match result with
        | Some r => if truthy r then mret r else mret ""
        | None => mret ""
        end
      else mret ""
  | None => mret ""
  end.

Definition pledgePath : string := "./public/documenso-supporter-pledge.pdf".

(** [signatureImageAsBase64: signatureDataUrl || undefined] *)
Definition imageArtifact (signatureDataUrl : string) : option string :=
  if truthy signatureDataUrl then Some signatureDataUrl else None.

(** [typedSignature: signatureDataUrl ? '' : signatureText] *)
Definition typedArtifact (signatureDataUrl : string) (signatureText : option string)
    : option string :=
  if truthy signatureDataUrl then Some "" else signatureText.

Definition provisionPledge (env : Env) (session : StripeSession) : M NextApiResponse :=
  user ← prisma_user_findFirst (Number_ env (client_reference_id session));
  match user with
  | None => mret (json 500 false "User not found")
  | Some user =>
      let signatureText := signatureTextOf session user in
      signatureDataUrl ← resolveSignatureDataUrl env session;
      let now := now env in
      bytes64 ← or_throw FileReadError (readFileSync env pledgePath);
      documentDataId ← prisma_documentData_create
        {| dd_type := BYTES_64; dd_data := bytes64; dd_initialData := bytes64 |};
      '(documentId, documentData) ← prisma_document_create
        {| doc_title := "Documenso Supporter Pledge.pdf";
           doc_status := COMPLETED;
           doc_userId := user_id user;
           doc_documentDataId := documentDataId |};
      match documentData with
      | None => throw (DocumentHasNoData documentId)
      | Some documentData =>
          recipientId ← prisma_recipient_create
            {| rcp_name := default "" (user_name user);
               rcp_email := user_email user;
               rcp_token := randomToken env;
               rcp_signedAt := now;
               rcp_readStatus := OPENED;
               rcp_sendStatus := SENT;
               rcp_signingStatus := SIGNED;
               rcp_documentId := documentId |};
          '(fieldId, field) ← prisma_field_create
            {| fld_documentId := documentId;
               fld_recipientId := recipientId;
               fld_type := SIGNATURE;
               fld_page := 0;
               fld_positionX := 77;
               fld_positionY := 638;
               fld_inserted := false;
               fld_customText := "" |};
          data ← (if truthy signatureDataUrl then
                    or_throw PdfError
                      (insertImageInPDF env (dd_data documentData) signatureDataUrl
                         (fld_positionX field) (fld_positionY field) (fld_page field))
                  else
                    or_throw PdfError
                      (insertTextInPDF env (dd_data documentData) (default "" signatureText)
                         (fld_positionX field) (fld_positionY field) (fld_page field)));
          (* Promise.all([signature.create, document.update]): the two
             writes are issued in this order and touch different tables *)
          prisma_signature_create
            {| sig_fieldId := fieldId;
               sig_recipientId := recipientId;
               sig_signatureImageAsBase64 := imageArtifact signatureDataUrl;
               sig_typedSignature := typedArtifact signatureDataUrl signatureText |};;
          prisma_document_update documentId data;;
          mret (json 200 true "Webhook received")
      end
  end.

(** ** Event router (lines 59-210) *)

(** [event.data.object as Stripe.Subscription]: the cast is unchecked;
    Stripe builds the payload to match the type tag, and a payload of
    another shape fails at its first missing property. *)
Definition asSubscription (o : StripeObject) : M StripeSubscription :=
  match o with
  | SubscriptionObject s => mret s
  | _ => throw TypeError
  end.

Definition asSession (o : StripeObject) : M StripeSession :=
  match o with
  | SessionObject s => mret s
  | _ => throw TypeError
  end.

Definition dispatch (env : Env) (event : StripeEvent) : M NextApiResponse :=
  if String.eqb (type event) "customer.subscription.updated" then
    subscription ← asSubscription (data_object event);
    handleCustomerSubscriptionUpdated env subscription;;
    mret (json 200 true "Webhook received")
  else if String.eqb (type event) "checkout.session.completed" then
    session ← asSession (data_object event);
    match metadata_get session "source" with
    | Some src =>
        if String.eqb src "landing" then provisionPledge env session
        else mret (json 200 true "Webhook received")
    | None => mret (json 200 true "Webhook received")
    end
  else
    log ["Unhandled webhook event"; type event];;
    mret (json 400 false "Unhandled webhook event").

(** ** The request handler (lines 29-211) *)

(** [typeof req.headers['stripe-signature'] === 'string' ? req.headers['stripe-signature'] : ''] *)
Definition signatureHeader (req : NextApiRequest) : string :=
  match headers req !! "stripe-signature" with
  | Some (HeaderString s) => s
  | _ => ""
  end.

Definition handler (env : Env) (req : NextApiRequest) : M NextApiResponse :=
  let sig := signatureHeader req in
  if negb (truthy sig) then
    mret (json 400 false "No signature found in request")
  else
    log ["constructing body..."];;
    let body := raw_body req in
    log ["constructed body"];;
    event ← or_throw StripeSignatureVerificationError
              (constructEvent env body sig (webhookSecret env));
    log ["event-type:"; type event];;
    dispatch env event.

(** ** Vocabulary of the properties *)

Definition ok200 : NextApiResponse := json 200 true "Webhook received".

(** The request carries a signature header the verifier accepts, and
    verification yields [ev]. *)
Definition delivers (env : Env) (req : NextApiRequest) (ev : StripeEvent) : Prop :=
  truthy (signatureHeader req) = true ∧
  constructEvent env (raw_body req) (signatureHeader req) (webhookSecret env) = Some ev.

(** No usable signature header: absent, not a single string, or empty. *)
Definition signature_missing (req : NextApiRequest) : Prop :=
  truthy (signatureHeader req) = false.

(** A signature header is there and the verifier rejects it. *)
Definition signature_invalid (env : Env) (req : NextApiRequest) : Prop :=
  truthy (signatureHeader req) = true ∧
  constructEvent env (raw_body req) (signatureHeader req) (webhookSecret env) = None.

Definition subscriptionUpdated (s : StripeSubscription) : StripeEvent :=
  {| type := "customer.subscription.updated"; data_object := SubscriptionObject s |}.

Definition checkoutCompleted (s : StripeSession) : StripeEvent :=
  {| type := "checkout.session.completed"; data_object := SessionObject s |}.

(** The world once the signature is verified: three lines were logged. *)
Definition verified (ev : StripeEvent) (w : World) : World :=
  {| db := db w; calls := calls w;
     console := ((console w ++ [["[stripe]"; "constructing body..."]])
                   ++ [["[stripe]"; "constructed body"]])
                   ++ [["[stripe]"; "event-type:"; type ev]] |}.

(** A nullable text column holds something: present and not empty. *)
Definition populated (o : option string) : bool :=
  match o with
  | Some s => truthy s
  | None => false
  end.

(** [row] is in [after] under a key [before] does not have. *)
Definition created {A} (before after : gmap nat A) (id : nat) (row : A) : Prop :=
  before !! id = None ∧ after !! id = Some row.

(** The columns of a subscription the billing state consists of. *)
Definition billingState (row : Subscription) : SubscriptionStatus * string * bool * Z :=
  (sub_status row, sub_planId row, sub_cancelAtPeriodEnd row, sub_periodEnd row).

(** What lines 91-99 compute, as a function of the cache contents. *)
Definition signatureDataUrlOf (env : Env) (session : StripeSession) : string :=
  match metadata_get session "signatureDataUrl" with
  | Some ref =>
      if truthy ref then
        match redis env !! ("signature:" +:+ ref) with
        | Some r => if truthy r then r else ""
        | None => ""
        end
      else ""
  | None => ""
  end.

Definition cacheCalls (session : StripeSession) : list Call :=
  match metadata_get session "signatureDataUrl" with
  | Some ref => if truthy ref then [RedisGet ("signature:" +:+ ref)] else []
  | None => []
  end.

(** Lines 157-173: the content with the signer's mark drawn at the field. *)
Definition drawMark (env : Env) (pdf signatureDataUrl : string) (signatureText : option string)
    : option string :=
  if truthy signatureDataUrl then insertImageInPDF env pdf signatureDataUrl 77 638 0
  else insertTextInPDF env pdf (default "" signatureText) 77 638 0.

(** The rows a provisioning run writes. *)
Definition pledgeData (data initialData : string) : DocumentData :=
  {| dd_type := BYTES_64; dd_data := data; dd_initialData := initialData |}.

Definition pledgeDocument (user : User) (documentDataId : nat) : Document :=
  {| doc_title := "Documenso Supporter Pledge.pdf"; doc_status := COMPLETED;
     doc_userId := user_id user; doc_documentDataId := documentDataId |}.

Definition pledgeRecipient (env : Env) (user : User) (documentId : nat) : Recipient :=
  {| rcp_name := default "" (user_name user); rcp_email := user_email user;
     rcp_token := randomToken env; rcp_signedAt := now env;
     rcp_readStatus := OPENED; rcp_sendStatus := SENT; rcp_signingStatus := SIGNED;
     rcp_documentId := documentId |}.

Definition pledgeField (documentId recipientId : nat) : Field :=
  {| fld_documentId := documentId; fld_recipientId := recipientId;
     fld_type := SIGNATURE; fld_page := 0; fld_positionX := 77; fld_positionY := 638;
     fld_inserted := false; fld_customText := "" |}.

Definition pledgeSignature (fieldId recipientId : nat) (signatureDataUrl : string)
    (signatureText : option string) : Signature :=
  {| sig_fieldId := fieldId; sig_recipientId := recipientId;
     sig_signatureImageAsBase64 := imageArtifact signatureDataUrl;
     sig_typedSignature := typedArtifact signatureDataUrl signatureText |}.

(** The database after steps 4-7: content, document, recipient and field
    exist, the content is still the template. *)
Definition drafted (env : Env) (user : User) (tpl : string) (d : Db) : Db :=
  {| users := users d;
     subscriptions := subscriptions d;
     documentDatas := <[nextId (documentDatas d) := pledgeData tpl tpl]> (documentDatas d);
     documents :=
       <[nextId (documents d) := pledgeDocument user (nextId (documentDatas d))]> (documents d);
     recipients :=
       <[nextId (recipients d) := pledgeRecipient env user (nextId (documents d))]>
         (recipients d);
     fields :=
       <[nextId (fields d) := pledgeField (nextId (documents d)) (nextId (recipients d))]>
         (fields d);
     signatures := signatures d |}.

Definition draftCalls (env : Env) (user : User) (tpl : string) (d : Db) : list Call :=
  [DocumentDataCreate (nextId (documentDatas d)) (pledgeData tpl tpl);
   DocumentCreate (nextId (documents d)) (pledgeDocument user (nextId (documentDatas d)));
   RecipientCreate (nextId (recipients d)) (pledgeRecipient env user (nextId (documents d)));
   FieldCreate (nextId (fields d)) (pledgeField (nextId (documents d)) (nextId (recipients d)))].

(** The database after step 9. *)
Definition signed (env : Env) (user : User) (tpl data signatureDataUrl : string)
    (signatureText : option string) (d : Db) : Db :=
  {| users := users d;
     subscriptions := subscriptions d;
     documentDatas := <[nextId (documentDatas d) := pledgeData data tpl]> (documentDatas d);
     documents := documents (drafted env user tpl d);
     recipients := recipients (drafted env user tpl d);
     fields := fields (drafted env user tpl d);
     signatures :=
       <[nextId (signatures d) :=
           pledgeSignature (nextId (fields d)) (nextId (recipients d))
             signatureDataUrl signatureText]> (signatures d) |}.

Definition signCalls (data signatureDataUrl : string) (signatureText : option string)
    (d : Db) : list Call :=
  [SignatureCreate (nextId (signatures d))
     (pledgeSignature (nextId (fields d)) (nextId (recipients d))
        signatureDataUrl signatureText);
   DocumentUpdateData (nextId (documents d)) data].

Definition called (w : World) (d : Db) (cs : list Call) : World :=
  {| db := d; calls := calls w ++ cs; console := console w |}.

(** Every way a provisioning run can go, with the world it leaves. *)
Definition provisionOutcome (env : Env) (session : StripeSession) (w : World)
    : Outcome NextApiResponse * World :=
  match Number_ env (client_reference_id session) with
  | None => (Threw PrismaValidationError, w)
  | Some uid =>
      match users (db w) !! uid with
      | None => (Returned (json 500 false "User not found"),
                 called w (db w) [UserFindFirst uid])
      | Some user =>
          let u := signatureDataUrlOf env session in
          let t := signatureTextOf session user in
          match readFileSync env pledgePath with
          | None => (Threw FileReadError,
                     called w (db w) (UserFindFirst uid :: cacheCalls session))
          | Some tpl =>
              match drawMark env tpl u t with
              | None => (Threw PdfError,
                         called w (drafted env user tpl (db w))
                           (UserFindFirst uid :: cacheCalls session
                              ++ draftCalls env user tpl (db w)))
              | Some data => (Returned ok200,
                              called w (signed env user tpl data u t (db w))
                                (UserFindFirst uid :: cacheCalls session
                                   ++ draftCalls env user tpl (db w)
                                   ++ signCalls data u t (db w)))
              end
          end
      end
  end.

(** Modelled from the spec: [insertImageInPDF] is defined in
    [@documenso/lib/server-only/pdf/insert-image-in-pdf], which is not
    among the sources of the endpoint.  The specification (4.4, step 8)
    says of the insertion that it "produces new binary content that must
    replace the DocumentData's data field": whenever the routine returns,
    what it returns is not the content it was given. *)
Definition producesNewContent (env : Env) : Prop :=
  ∀ pdf image x y page out,
    insertImageInPDF env pdf image x y page = Some out → out ≠ pdf.

(** The session's reference resolves in the cache to the image [img]. *)
Definition resolvesImage (env : Env) (session : StripeSession) (img : string) : Prop :=
  ∃ ref, metadata_get session "signatureDataUrl" = Some ref ∧ ref ≠ "" ∧
         redis env !! ("signature:" +:+ ref) = Some img ∧ img ≠ "".

(** The [data] the reconciler passes to [prisma.subscription.update]. *)
Definition updateOf (env : Env) (s : StripeSubscription) : SubscriptionUpdateInput :=
  {| upd_planId := plan_id s;
     upd_status := matchStatus (status s);
     upd_cancelAtPeriodEnd := cancel_at_period_end s;
     upd_periodEnd := current_period_end s * 1000;
     upd_updatedAt := now env |}.

(** ** A concrete deployment

    A verifier that accepts one signature, a decimal [Number], a PDF
    routine that appends the mark to the content, and a small database. *)

Definition decimalNumber (o : option string) : option Z :=
  match o with
  | None => Some 0
  | Some s => Z.of_uint <$> NilEmpty.uint_of_string s
  end.

Definition goodSignature : string :=
  "t=1700000000,v1=5257a869e7ecebeda32affa62cdca3fa51cad7e77a0e56ff536d0ce8e108d8bd".

Definition sampleEnv (ev : StripeEvent) (at_ : Z) : Env :=
  {| webhookSecret := Some "whsec_test";
     constructEvent := λ body sg secret,
       if String.eqb sg goodSignature then Some ev else None;
     Number_ := decimalNumber;
     redis := {[ "signature:abc" := "data:image/png;base64,iVBORw0KGgo=" ]};
     readFileSync := λ path, if String.eqb path pledgePath then Some "JVBERi0xLjcK" else None;
     insertImageInPDF := λ pdf image x y page, Some (pdf +:+ "+image");
     insertTextInPDF := λ pdf text x y page, Some (pdf +:+ "+text(" +:+ text +:+ ")");
     randomToken := "00112233445566778899aabbccddeeff";
     now := at_ |}.

Definition alice : User :=
  {| user_id := 7; user_name := Some "Alice"; user_email := "alice@example.com" |}.

Definition bob : User :=
  {| user_id := 8; user_name := None; user_email := "bob@example.com" |}.

Definition sampleDb : Db :=
  {| users := {[ 7 := alice; 8 := bob ]};
     subscriptions :=
       {[ "cus_123" := {| sub_id := 1; sub_userId := 7; sub_createdAt := 1690000000000;
                          sub_planId := "price_old"; sub_status := INACTIVE;
                          sub_cancelAtPeriodEnd := true; sub_periodEnd := 1695000000000;
                          sub_updatedAt := 1690000000000 |} ]};
     documentDatas := ∅; documents := ∅; recipients := ∅; fields := ∅; signatures := ∅ |}.

Definition sampleWorld : World := {| db := sampleDb; calls := []; console := [] |}.

Definition signedRequest : NextApiRequest :=
  {| headers := {[ "stripe-signature" := HeaderString goodSignature ]}; raw_body := "{}" |}.

Definition forgedRequest : NextApiRequest :=
  {| headers := {[ "stripe-signature" := HeaderString "t=1700000000,v1=00" ]};
     raw_body := "{}" |}.

Definition unsignedRequest : NextApiRequest :=
  {| headers := {[ "content-type" := HeaderString "application/json" ]}; raw_body := "{}" |}.

Definition renewal : StripeSubscription :=
  {| customer := CustomerId "cus_123"; plan_id := "price_supporter"; status := "active";
     cancel_at_period_end := false; current_period_end := 1702592000 |}.

Definition strangerRenewal : StripeSubscription :=
  {| customer := CustomerObject "cus_404"; plan_id := "price_supporter";
     status := "past_due"; cancel_at_period_end := false;
     current_period_end := 1702592000 |}.

(** Alice pledges with a drawn signature the cache still holds. *)
Definition drawnPledge : StripeSession :=
  {| metadata := Some {[ "source" := "landing"; "signatureDataUrl" := "abc" ]};
     client_reference_id := Some "7" |}.

(** Alice pledges with a typed signature. *)
Definition typedPledge : StripeSession :=
  {| metadata := Some {[ "source" := "landing"; "signatureText" := "A. Lovelace" ]};
     client_reference_id := Some "7" |}.

(** Bob, who has no stored name, pledges without typing or drawing. *)
Definition bobPledge : StripeSession :=
  {| metadata := Some {[ "source" := "landing" ]}; client_reference_id := Some "8" |}.

(** Bob pledges with a drawn signature that has left the cache. *)
Definition expiredPledge : StripeSession :=
  {| metadata := Some {[ "source" := "landing"; "signatureDataUrl" := "gone" ]};
     client_reference_id := Some "8" |}.

(** A checkout that did not start on the landing page. *)
Definition appCheckout : StripeSession :=
  {| metadata := Some {[ "source" := "app" ]}; client_reference_id := Some "7" |}.

(** The deployments the examples below run in. *)
Definition renewalEnv : Env := sampleEnv (subscriptionUpdated renewal) 1700000000000.
Definition replayEnv : Env := sampleEnv (subscriptionUpdated renewal) 1700000090000.
Definition strangerEnv : Env := sampleEnv (subscriptionUpdated strangerRenewal) 1700000000000.
Definition appEnv : Env := sampleEnv (checkoutCompleted appCheckout) 1700000000000.
Definition drawnEnv : Env := sampleEnv (checkoutCompleted drawnPledge) 1700000000000.
Definition typedEnv : Env := sampleEnv (checkoutCompleted typedPledge) 1700000000000.
Definition bobEnv : Env := sampleEnv (checkoutCompleted bobPledge) 1700000000000.
Definition expiredEnv : Env := sampleEnv (checkoutCompleted expiredPledge) 1700000000000.

(** ** Vocabulary of the further properties *)

(** The world after the router met an event type it does not handle. *)
Definition unhandled (ev : StripeEvent) (w : World) : World :=
  {| db := db w; calls := calls w;
     console := console (verified ev w)
                  ++ [["[stripe]"; "Unhandled webhook event"; type ev]] |}.

(** A table gained at most one row, under the key the database chose,
    and kept every row it had. *)
Definition grewByAtMostOne {A} (before after : gmap nat A) : Prop :=
  after = before ∨ ∃ row, after = <[nextId before := row]> before.

(** The session without its signature-image reference. *)
Definition withoutReference (session : StripeSession) : StripeSession :=
  {| metadata := delete "signatureDataUrl" <$> metadata session;
     client_reference_id := client_reference_id session |}.

(** More deployments for the examples. *)
Definition invoicePaid : StripeEvent :=
  {| type := "invoice.paid"; data_object := OtherObject |}.
Definition invoiceEnv : Env := sampleEnv invoicePaid 1700000000000.

Definition ghostPledge : StripeSession :=
  {| metadata := Some {[ "source" := "landing" ]}; client_reference_id := Some "99" |}.
Definition ghostEnv : Env := sampleEnv (checkoutCompleted ghostPledge) 1700000000000.

Definition downgrade : StripeSubscription :=
  {| customer := CustomerObject "cus_123"; plan_id := "price_free"; status := "canceled";
     cancel_at_period_end := true; current_period_end := 1705270400 |}.
Definition downgradeEnv : Env := sampleEnv (subscriptionUpdated downgrade) 1700000500000.

(** A deployment whose PDF routines fail and one whose template is gone. *)
Definition brokenPdfEnv : Env :=
  {| webhookSecret := webhookSecret typedEnv;
     constructEvent := constructEvent typedEnv;
     Number_ := Number_ typedEnv;
     redis := redis typedEnv;
     readFileSync := readFileSync typedEnv;
     insertImageInPDF := λ pdf image x y page, None;
     insertTextInPDF := λ pdf text x y page, None;
     randomToken := randomToken typedEnv;
     now := now typedEnv |}.

Definition noTemplateEnv : Env :=
  {| webhookSecret := webhookSecret typedEnv;
     constructEvent := constructEvent typedEnv;
     Number_ := Number_ typedEnv;
     redis := redis typedEnv;
     readFileSync := λ path, None;
     insertImageInPDF := insertImageInPDF typedEnv;
     insertTextInPDF := insertTextInPDF typedEnv;
     randomToken := randomToken typedEnv;
     now := now typedEnv |}.



(** The deployment [env] at the moment its verifier accepts the request
    as the event [ev]. *)
Definition receiving (env : Env) (ev : StripeEvent) : Env :=
  {| webhookSecret := webhookSecret env;
     constructEvent := λ body sg secret, Some ev;
     Number_ := Number_ env;
     redis := redis env;
     readFileSync := readFileSync env;
     insertImageInPDF := insertImageInPDF env;
     insertTextInPDF := insertTextInPDF env;
     randomToken := randomToken env;
     now := now env |}.

(** ** The password form

    The schema and the submit callback of the account-settings password
    form.  A JavaScript string is the sequence of its UTF-16 code units:
    [.length] counts them and [===] compares them one by one. *)

Definition JsString : Type := list N.

Record TPasswordFormSchema := {
  password : JsString;
  repeatedPassword : JsString;
}.

Inductive ZodIssue :=
| TooSmall (path : list string) (minimum : nat)
| Custom (path : list string) (message : string).

(** [z.string().min(n)] on the string found at [path] *)
Definition z_string_min (n : nat) (path : list string) (s : JsString) : list ZodIssue :=
  if (length s <? n)%nat then [TooSmall path n] else [].

(** [z.object({ password: z.string().min(6), repeatedPassword: z.string().min(6) })
      .refine((data) => data.password === data.repeatedPassword,
              { message: 'Passwords do not match', path: ['repeatedPassword'] })]:
    the issues found, none when the data is accepted.  A string that is
    too short is reported and checking goes on, so the refinement is
    evaluated too. *)
Definition ZPasswordFormSchema (data : TPasswordFormSchema) : list ZodIssue :=
  z_string_min 6 ["password"] (password data)
  ++ z_string_min 6 ["repeatedPassword"] (repeatedPassword data)
  ++ (if decide (password data = repeatedPassword data) then []
      else [Custom ["repeatedPassword"] "Passwords do not match"]).

Record Toast := {
  toast_title : string;
  toast_description : string;
  toast_variant : option string;
  toast_duration : option Z;
}.

(** What [updatePassword] may reject with. *)
Inductive Rejection :=
| TRPCClientError (code : option string) (message : string)
| OtherError.

(** What the user sees and what the server was sent. *)
Record Page := {
  toasts : list Toast;
  sent : list JsString;
}.

Definition toast (t : Toast) (p : Page) : Page :=
  {| toasts := toasts p ++ [t]; sent := sent p |}.

Definition unknownErrorToast : Toast :=
  {| toast_title := "An unknown error occurred";
     toast_description :=
       "We encountered an unknown error while attempting to sign you In. Please try again later.";
     toast_variant := Some "destructive";
     toast_duration := None |}.

(** [onFormSubmit]: the mutation is given the password alone; its
    outcome decides the toast. *)
Definition onFormSubmit (updatePassword : JsString → option Rejection)
    (data : TPasswordFormSchema) (p : Page) : Page :=
  let p := {| toasts := toasts p; sent := sent p ++ [password data] |} in
  match updatePassword (password data) with
  | None =>
      toast {| toast_title := "Password updated";
               toast_description := "Your password has been updated successfully.";
               toast_variant := None;
               toast_duration := Some 5000 |} p
  | Some (TRPCClientError (Some code) message) =>
      if String.eqb code "BAD_REQUEST" then
        toast {| toast_title := "An error occurred";
                 toast_description := message;
                 toast_variant := Some "destructive";
                 toast_duration := None |} p
      else toast unknownErrorToast p
  | Some _ => toast unknownErrorToast p
  end.

(** [handleSubmit(onFormSubmit)] with [resolver: zodResolver(ZPasswordFormSchema)]:
    the values are validated and the callback runs only when no issue
    is found. *)
Definition handleSubmit (updatePassword : JsString → option Rejection)
    (data : TPasswordFormSchema) (p : Page) : Page :=
  match ZPasswordFormSchema data with
  | [] => onFormSubmit updatePassword data p
  | _ :: _ => p
  end.

(** The code units of a string of one-byte characters. *)
Definition units (s : string) : JsString :=
  Ascii.N_of_ascii <$> String.list_ascii_of_string s.

(** A server that refuses the password "password" and takes any other. *)
Definition pickyServer (pw : JsString) : option Rejection :=
  if decide (pw = units "password")
  then Some (TRPCClientError (Some "BAD_REQUEST") "Password is too common")
  else None.

Definition emptyPage : Page := {| toasts := []; sent := [] |}.

(** * Properties *)

(** ** Running the monad *)

Ltac run :=
  cbv beta iota zeta delta
      [mbind M_bind mret M_ret throw get_db put_db record_call log or_throw redis_get
       prisma_subscription_update prisma_user_findFirst prisma_documentData_create
       prisma_document_create prisma_recipient_create prisma_field_create
       prisma_signature_create prisma_document_update
       with_subscriptions with_documentDatas with_documents with_recipients
       with_fields with_signatures called];
  cbn [db calls console users subscriptions documentDatas documents recipients
       fields signatures negb fst snd].

Ltac calls_norm := rewrite <- ?app_assoc; cbn [app].

Lemma truthy_true (s : string) : truthy s = true ↔ s ≠ "".
Proof. destruct s; cbn; split; congruence. Qed.

Lemma truthy_false (s : string) : truthy s = false ↔ s = "".
Proof. destruct s; cbn; split; congruence. Qed.

Lemma nextId_fresh {A} (t : gmap nat A) : t !! nextId t = None.
Proof. apply not_elem_of_dom, is_fresh. Qed.

Lemma created_insert {A} (t : gmap nat A) (x : A) id row :
  created t (<[nextId t := x]> t) id row → id = nextId t ∧ row = x.
Proof.
  intros [Hb Ha]. rewrite lookup_insert in Ha. case_decide as Hid.
  - split; congruence.
  - congruence.
Qed.

Lemma created_same {A} (t : gmap nat A) id row : ¬ created t t id row.
Proof. intros [Hb Ha]. congruence. Qed.

Lemma insert_created {A} (t : gmap nat A) (x : A) :
  created t (<[nextId t := x]> t) (nextId t) x.
Proof. split; [apply nextId_fresh | apply lookup_insert_eq]. Qed.

(** ** The verifier (lines 37-57) *)

Lemma handler_missing env req w :
  signature_missing req →
  handler env req w = (Returned (json 400 false "No signature found in request"), w).
Proof. intros Hsig. unfold handler. rewrite Hsig. reflexivity. Qed.

Lemma handler_invalid env req w :
  signature_invalid env req →
  handler env req w =
  (Threw StripeSignatureVerificationError,
   {| db := db w; calls := calls w;
      console := (console w ++ [["[stripe]"; "constructing body..."]])
                   ++ [["[stripe]"; "constructed body"]] |}).
Proof. intros [Hsig Hev]. unfold handler. rewrite Hsig. run. rewrite Hev. reflexivity. Qed.

Lemma handler_verified env req ev w :
  delivers env req ev → handler env req w = dispatch env ev (verified ev w).
Proof.
  intros [Hsig Hev]. unfold handler. rewrite Hsig. run. rewrite Hev. run. reflexivity.
Qed.

(** ** The reconciler *)

Lemma dispatch_subscription env s w :
  dispatch env (subscriptionUpdated s) w =
  match subscriptions (db w) !! customerIdOf (customer s) with
  | Some row =>
      (Returned ok200,
       called w (with_subscriptions (db w)
                   (<[customerIdOf (customer s) := apply_update (updateOf env s) row]>
                      (subscriptions (db w))))
         [SubscriptionUpdate (customerIdOf (customer s)) (updateOf env s)])
  | None =>
      (Threw RecordNotFound,
       called w (db w) [SubscriptionUpdate (customerIdOf (customer s)) (updateOf env s)])
  end.
Proof.
  unfold dispatch, subscriptionUpdated, handleCustomerSubscriptionUpdated, asSubscription.
  cbn [type data_object String.eqb Ascii.eqb Bool.eqb]. run.
  destruct (subscriptions (db w) !! customerIdOf (customer s)); reflexivity.
Qed.

(** ** The provisioner *)

Lemma resolveSignatureDataUrl_run env session w :
  resolveSignatureDataUrl env session w =
  (Returned (signatureDataUrlOf env session), called w (db w) (cacheCalls session)).
Proof.
  unfold resolveSignatureDataUrl, signatureDataUrlOf, cacheCalls, called.
  destruct w as [d cs out].
  destruct (metadata_get session "signatureDataUrl") as [ref|]; run;
    [destruct (truthy ref); run;
     [destruct (redis env !! _) as [r|]; [destruct (truthy r)|]; reflexivity|]|];
    by rewrite app_nil_r.
Qed.

Lemma provisionPledge_run env session w :
  provisionPledge env session w = provisionOutcome env session w.
Proof.
  unfold provisionPledge, provisionOutcome.
  destruct (Number_ env (client_reference_id session)) as [uid|]; run; [|done].
  destruct (users (db w) !! uid) as [user|]; run; [|done].
  rewrite resolveSignatureDataUrl_run. run.
  destruct (readFileSync env pledgePath) as [tpl|]; run; [|by calls_norm].
  cbn [doc_documentDataId].
  rewrite !lookup_insert_eq. run.
  unfold drawMark. cbn [fld_positionX fld_positionY fld_page dd_data].
  destruct (truthy (signatureDataUrlOf env session)).
  all: destruct (_ env tpl _ 77 638 0) as [data|]; run.
  all: try (rewrite lookup_insert_eq; cbn [doc_documentDataId];
            rewrite lookup_insert_eq; run; rewrite insert_insert_eq).
  all: unfold signed, drafted, draftCalls, signCalls, pledgeSignature, pledgeData,
         pledgeDocument, pledgeRecipient, pledgeField, ok200;
       cbn [dd_type dd_initialData documentDatas documents recipients fields];
       by calls_norm.
Qed.

Lemma dispatch_landing env session w :
  metadata_get session "source" = Some "landing" →
  dispatch env (checkoutCompleted session) w = provisionOutcome env session w.
Proof.
  intros Hsrc. unfold dispatch, checkoutCompleted, asSession.
  cbn [type data_object String.eqb Ascii.eqb Bool.eqb]. run.
  rewrite Hsrc. cbn [String.eqb Ascii.eqb Bool.eqb]. apply provisionPledge_run.
Qed.

Lemma dispatch_elsewhere env session w :
  metadata_get session "source" ≠ Some "landing" →
  dispatch env (checkoutCompleted session) w = (Returned ok200, w).
Proof.
  intros Hsrc. unfold dispatch, checkoutCompleted, asSession.
  cbn [type data_object String.eqb Ascii.eqb Bool.eqb]. run.
  destruct (metadata_get session "source") as [src|]; [|done].
  destruct (String.eqb_spec src "landing") as [->|]; done.
Qed.

(** The two writes of step 9 are started together by [Promise.all]; as
    they touch different tables, the order in which the database serves
    them does not show in what it holds afterwards. *)
Lemma step9_writes_commute row documentId data doc dd w :
  documents (db w) !! documentId = Some doc →
  documentDatas (db w) !! doc_documentDataId doc = Some dd →
  db ((prisma_signature_create row;; prisma_document_update documentId data) w).2 =
  db ((prisma_document_update documentId data;; prisma_signature_create row) w).2.
Proof. intros Hdoc Hdd. run. rewrite Hdoc, Hdd. run. reflexivity. Qed.

Example unsigned_request_rejected :
  handler renewalEnv unsignedRequest sampleWorld =
  (Returned (json 400 false "No signature found in request"), sampleWorld).
Proof. vm_compute. reflexivity. Qed.

Example repeated_header_rejected :
  (handler renewalEnv
     {| headers := {[ "stripe-signature" := HeaderList [goodSignature; goodSignature] ]};
        raw_body := "{}" |} sampleWorld).1 =
  Returned (json 400 false "No signature found in request").
Proof. vm_compute. reflexivity. Qed.

Example unknown_event_rejected :
  (handler (sampleEnv {| type := "invoice.paid"; data_object := OtherObject |} 0)
     signedRequest sampleWorld).1 =
  Returned (json 400 false "Unhandled webhook event").
Proof. vm_compute. reflexivity. Qed.

Example missing_user_is_500 :
  (handler (sampleEnv (checkoutCompleted
                         {| metadata := Some {[ "source" := "landing" ]};
                            client_reference_id := None |}) 0)
     signedRequest sampleWorld).1 =
  Returned (json 500 false "User not found").
Proof. vm_compute. reflexivity. Qed.

Example drawn_pledge_content :
  documentDatas (db (handler drawnEnv signedRequest sampleWorld).2) !! 0%nat =
  Some {| dd_type := BYTES_64; dd_data := "JVBERi0xLjcK+image";
          dd_initialData := "JVBERi0xLjcK" |}.
Proof. vm_compute. reflexivity. Qed.

Example typed_pledge_content :
  documentDatas (db (handler typedEnv signedRequest sampleWorld).2) !! 0%nat =
  Some {| dd_type := BYTES_64; dd_data := "JVBERi0xLjcK+text(A. Lovelace)";
          dd_initialData := "JVBERi0xLjcK" |}.
Proof. vm_compute. reflexivity. Qed.

Lemma matchStatus_cases (s : string) :
  matchStatus s =
  if decide (s = "active") then ACTIVE
  else if decide (s = "past_due") then PAST_DUE
  else INACTIVE.
Proof.
  unfold matchStatus.
  destruct (String.eqb_spec s "active"), (String.eqb_spec s "past_due");
    repeat case_decide; congruence.
Qed.

Example matchStatus_canceled : matchStatus "canceled" = INACTIVE.
Proof. reflexivity. Qed.

Example matchStatus_unpaid : matchStatus "unpaid" = INACTIVE.
Proof. reflexivity. Qed.

Example matchStatus_empty : matchStatus "" = INACTIVE.
Proof. reflexivity. Qed.

(** ** Signature verification *)

(** C1, as stated, fails: a request whose signature header the verifier
    rejects is not answered with HTTP 400.  With the forged header the
    verification error leaves the handler uncaught and no response is
    sent by it. *)
Lemma invalid_signature_is_not_answered_400 :
  signature_invalid renewalEnv forgedRequest ∧
  ¬ ∃ resp, (handler renewalEnv forgedRequest sampleWorld).1 = Returned resp ∧
            res_status resp = 400.
Proof.
  split.
  - split; reflexivity.
  - intros (resp & Hret & _). vm_compute in Hret. discriminate Hret.
Qed.

(** C1 (amended).  For every request whose signature header is missing
    or whose signature the verifier rejects, no record is read or
    written: the database is unchanged and no persistence or cache call
    is issued.  With the header missing the handler responds HTTP 400
    with body {success:false, message:"No signature found in request"};
    with a rejected signature the verification error propagates out of
    the handler, which sends no response of its own. *)
Theorem rejected_request_touches_nothing env req w :
  signature_missing req ∨ signature_invalid env req →
  db (handler env req w).2 = db w ∧
  calls (handler env req w).2 = calls w ∧
  (signature_missing req →
     (handler env req w).1 = Returned (json 400 false "No signature found in request")) ∧
  (signature_invalid env req →
     (handler env req w).1 = Threw StripeSignatureVerificationError).
Proof.
  intros [Hmiss | Hbad].
  - rewrite (handler_missing env req w Hmiss). repeat split.
    intros [Hsig _]. unfold signature_missing in Hmiss. congruence.
  - rewrite (handler_invalid env req w Hbad). repeat split.
    intros Hmiss. destruct Hbad as [Hsig _]. unfold signature_missing in Hmiss. congruence.
Qed.

Lemma rejected_request_touches_nothing_witness :
  db (handler renewalEnv forgedRequest sampleWorld).2 = db sampleWorld ∧
  calls (handler renewalEnv forgedRequest sampleWorld).2 = calls sampleWorld ∧
  (signature_missing forgedRequest →
     (handler renewalEnv forgedRequest sampleWorld).1
     = Returned (json 400 false "No signature found in request")) ∧
  (signature_invalid renewalEnv forgedRequest →
     (handler renewalEnv forgedRequest sampleWorld).1
     = Threw StripeSignatureVerificationError).
Proof.
  apply (rejected_request_touches_nothing renewalEnv forgedRequest sampleWorld).
  right. split; reflexivity.
Defined.

(** ** Subscription reconciliation *)

(** C5.  A verified customer.subscription.updated event for a stored
    customer is acknowledged with HTTP 200 whatever its status string,
    and the stored status becomes ACTIVE for "active", PAST_DUE for
    "past_due" and INACTIVE for every other string. *)
Theorem status_mapping env req s w :
  delivers env req (subscriptionUpdated s) →
  is_Some (subscriptions (db w) !! customerIdOf (customer s)) →
  (handler env req w).1 = Returned ok200 ∧
  sub_status <$> subscriptions (db (handler env req w).2) !! customerIdOf (customer s) =
  Some (if decide (status s = "active") then ACTIVE
        else if decide (status s = "past_due") then PAST_DUE
        else INACTIVE).
Proof.
  intros Hev [row Hrow].
  rewrite (handler_verified env req _ w Hev), dispatch_subscription.
  cbn [verified db]. rewrite Hrow. run. split; [done|].
  rewrite lookup_insert_eq. cbn. by rewrite matchStatus_cases.
Qed.

Lemma status_mapping_witness :
  (handler renewalEnv signedRequest sampleWorld).1 = Returned ok200 ∧
  sub_status <$> subscriptions (db (handler renewalEnv signedRequest sampleWorld).2)
                   !! "cus_123" =
  Some ACTIVE.
Proof.
  apply (status_mapping renewalEnv signedRequest renewal sampleWorld).
  - split; reflexivity.
  - eexists. reflexivity.
Defined.

(** C6.  Delivering the identical customer.subscription.updated event a
    second time, at whatever later moment, leaves every subscription row
    with the status, plan id, cancel-at-period-end flag and period end it
    had after the first delivery; both deliveries are acknowledged. *)
Theorem subscription_update_idempotent env1 env2 req s w :
  delivers env1 req (subscriptionUpdated s) →
  delivers env2 req (subscriptionUpdated s) →
  is_Some (subscriptions (db w) !! customerIdOf (customer s)) →
  let once := handler env1 req w in
  let twice := handler env2 req once.2 in
  once.1 = Returned ok200 ∧ twice.1 = Returned ok200 ∧
  billingState <$> subscriptions (db twice.2) = billingState <$> subscriptions (db once.2).
Proof.
  intros Hev1 Hev2 [row Hrow]. cbv zeta.
  rewrite (handler_verified env1 req _ w Hev1), dispatch_subscription.
  cbn [verified db]. rewrite Hrow. run.
  rewrite (handler_verified env2 req _ _ Hev2), dispatch_subscription.
  cbn [verified db subscriptions]. rewrite lookup_insert_eq. run.
  repeat split.
  rewrite insert_insert_eq, !fmap_insert. reflexivity.
Qed.

Lemma subscription_update_idempotent_witness :
  (handler renewalEnv signedRequest sampleWorld).1 = Returned ok200 ∧
  (handler replayEnv signedRequest (handler renewalEnv signedRequest sampleWorld).2).1
  = Returned ok200 ∧
  billingState <$> subscriptions
    (db (handler replayEnv signedRequest (handler renewalEnv signedRequest sampleWorld).2).2)
  = billingState <$> subscriptions (db (handler renewalEnv signedRequest sampleWorld).2).
Proof.
  apply (subscription_update_idempotent renewalEnv replayEnv
           signedRequest renewal sampleWorld).
  - split; reflexivity.
  - split; reflexivity.
  - eexists. reflexivity.
Defined.

(** C7.  A verified customer.subscription.updated event whose customer
    id matches no stored subscription makes the request fail: the
    record-not-found failure leaves the handler uncaught, and the
    subscription table, like the rest of the database, is as before. *)
Theorem unknown_customer_fails_without_update env req s w :
  delivers env req (subscriptionUpdated s) →
  subscriptions (db w) !! customerIdOf (customer s) = None →
  (handler env req w).1 = Threw RecordNotFound ∧
  subscriptions (db (handler env req w).2) = subscriptions (db w) ∧
  db (handler env req w).2 = db w.
Proof.
  intros Hev Hrow.
  rewrite (handler_verified env req _ w Hev), dispatch_subscription.
  cbn [verified db]. rewrite Hrow. done.
Qed.

Lemma unknown_customer_fails_without_update_witness :
  (handler strangerEnv signedRequest sampleWorld).1 = Threw RecordNotFound ∧
  subscriptions (db (handler strangerEnv signedRequest sampleWorld).2)
  = subscriptions (db sampleWorld) ∧
  db (handler strangerEnv signedRequest sampleWorld).2 = db sampleWorld.
Proof.
  apply (unknown_customer_fails_without_update strangerEnv
           signedRequest strangerRenewal sampleWorld).
  - split; reflexivity.
  - reflexivity.
Defined.

(** ** Checkout sessions from elsewhere *)

(** C8.  A verified checkout.session.completed event whose
    metadata.source is not "landing" (or that has no metadata or no
    source) is answered HTTP 200 {success:true, message:"Webhook
    received"}; no Document, DocumentData, Recipient, Field or Signature
    is created and no persistence call is issued. *)
Theorem other_checkout_is_noop env req session w :
  delivers env req (checkoutCompleted session) →
  metadata_get session "source" ≠ Some "landing" →
  (handler env req w).1 = Returned (json 200 true "Webhook received") ∧
  documents (db (handler env req w).2) = documents (db w) ∧
  documentDatas (db (handler env req w).2) = documentDatas (db w) ∧
  recipients (db (handler env req w).2) = recipients (db w) ∧
  fields (db (handler env req w).2) = fields (db w) ∧
  signatures (db (handler env req w).2) = signatures (db w) ∧
  calls (handler env req w).2 = calls w.
Proof.
  intros Hev Hsrc.
  rewrite (handler_verified env req _ w Hev), (dispatch_elsewhere env session _ Hsrc).
  done.
Qed.

Lemma other_checkout_is_noop_witness :
  (handler appEnv signedRequest sampleWorld).1
  = Returned (json 200 true "Webhook received") ∧
  documents (db (handler appEnv signedRequest sampleWorld).2) = documents (db sampleWorld) ∧
  documentDatas (db (handler appEnv signedRequest sampleWorld).2)
  = documentDatas (db sampleWorld) ∧
  recipients (db (handler appEnv signedRequest sampleWorld).2) = recipients (db sampleWorld) ∧
  fields (db (handler appEnv signedRequest sampleWorld).2) = fields (db sampleWorld) ∧
  signatures (db (handler appEnv signedRequest sampleWorld).2)
  = signatures (db sampleWorld) ∧
  calls (handler appEnv signedRequest sampleWorld).2 = calls sampleWorld.
Proof.
  apply (other_checkout_is_noop appEnv signedRequest appCheckout sampleWorld).
  - split; reflexivity.
  - vm_compute. discriminate.
Defined.

(** ** Provisioning runs *)

Lemma handler_landing env req session w :
  delivers env req (checkoutCompleted session) →
  metadata_get session "source" = Some "landing" →
  handler env req w = provisionOutcome env session (verified (checkoutCompleted session) w).
Proof.
  intros Hev Hsrc. rewrite (handler_verified env req _ w Hev). by apply dispatch_landing.
Qed.

Lemma resolved_url env session img :
  resolvesImage env session img → signatureDataUrlOf env session = img ∧ truthy img = true.
Proof.
  intros (ref & Hmd & Href & Hget & Himg). unfold signatureDataUrlOf.
  apply truthy_true in Href, Himg. rewrite Hmd, Href, Hget, Himg. done.
Qed.

Lemma url_resolved env session :
  truthy (signatureDataUrlOf env session) = true →
  resolvesImage env session (signatureDataUrlOf env session).
Proof.
  unfold signatureDataUrlOf, resolvesImage.
  destruct (metadata_get session "signatureDataUrl") as [ref|]; [|done].
  destruct (truthy ref) eqn:Href; [|done].
  destruct (redis env !! _) as [r|] eqn:Hget; [|done].
  destruct (truthy r) eqn:Hr; [|done].
  intros _. exists ref. rewrite <- !truthy_true. done.
Qed.

Lemma unresolved_url env session :
  (∀ img, ¬ resolvesImage env session img) → signatureDataUrlOf env session = "".
Proof.
  intros Hno. apply truthy_false.
  destruct (truthy (signatureDataUrlOf env session)) eqn:Hu; [|done].
  destruct (Hno _ (url_resolved env session Hu)).
Qed.

Lemma imageArtifact_populated u : populated (imageArtifact u) = truthy u.
Proof. unfold imageArtifact. by destruct (truthy u) eqn:Hu. Qed.

Lemma typedArtifact_populated u t :
  populated (typedArtifact u t) = negb (truthy u) && populated t.
Proof. unfold typedArtifact. by destruct (truthy u). Qed.

(** Whoever finds a new signature row after a request knows the request
    was a landing checkout that ran to completion. *)
Lemma handler_creates_signature env req w id row :
  created (signatures (db w)) (signatures (db (handler env req w).2)) id row →
  ∃ session uid user tpl data,
    delivers env req (checkoutCompleted session) ∧
    metadata_get session "source" = Some "landing" ∧
    Number_ env (client_reference_id session) = Some uid ∧
    users (db w) !! uid = Some user ∧
    readFileSync env pledgePath = Some tpl ∧
    drawMark env tpl (signatureDataUrlOf env session) (signatureTextOf session user)
    = Some data ∧
    id = nextId (signatures (db w)) ∧
    row = pledgeSignature (nextId (fields (db w))) (nextId (recipients (db w)))
            (signatureDataUrlOf env session) (signatureTextOf session user).
Proof.
  destruct (truthy (signatureHeader req)) eqn:Hsig.
  2:{ rewrite (handler_missing env req w Hsig). intros []%created_same. }
  destruct (constructEvent env (raw_body req) (signatureHeader req) (webhookSecret env))
    as [[ty obj]|] eqn:Hev.
  2:{ rewrite (handler_invalid env req w (conj Hsig Hev)). intros []%created_same. }
  rewrite (handler_verified env req _ w (conj Hsig Hev)).
  destruct (String.eqb_spec ty "customer.subscription.updated") as [->|Hty1].
  { destruct obj as [s| |]; try (intros []%created_same).
    change (Build_StripeEvent _ _) with (subscriptionUpdated s).
    rewrite dispatch_subscription. cbn [verified db].
    destruct (subscriptions (db w) !! _); intros []%created_same. }
  destruct (String.eqb_spec ty "checkout.session.completed") as [->|Hty2].
  2:{ unfold dispatch. cbn [type].
      destruct (String.eqb_spec ty "customer.subscription.updated"); [done|].
      destruct (String.eqb_spec ty "checkout.session.completed"); [done|].
      intros []%created_same. }
  destruct obj as [|session|]; try (intros []%created_same).
  change (Build_StripeEvent _ _) with (checkoutCompleted session) in *.
  destruct (decide (metadata_get session "source" = Some "landing")) as [Hsrc|Hsrc].
  2:{ rewrite (dispatch_elsewhere env session _ Hsrc). intros []%created_same. }
  rewrite (dispatch_landing env session _ Hsrc). unfold provisionOutcome.
  cbn [verified db].
  destruct (Number_ env (client_reference_id session)) as [uid|] eqn:Huid;
    [|intros []%created_same].
  destruct (users (db w) !! uid) as [user|] eqn:Huser; [|intros []%created_same].
  cbv zeta.
  destruct (readFileSync env pledgePath) as [tpl|] eqn:Htpl; [|intros []%created_same].
  destruct (drawMark env tpl _ _) as [data|] eqn:Hdata; [|intros []%created_same].
  intros [-> ->]%created_insert.
  exists session, uid, user, tpl, data. repeat split; done.
Qed.

Lemma append_fixed (s t : string) : s +:+ t = s → t = "".
Proof. induction s as [|c s IH]; cbn; [done|]. intros [= H]. auto. Qed.

Lemma sampleEnv_producesNewContent ev at_ : producesNewContent (sampleEnv ev at_).
Proof.
  intros pdf image x y page out [= <-] Heq. by apply append_fixed in Heq.
Qed.

(** ** Signature artifacts *)

(** C2, as stated, fails: when the session carries no signatureText and
    the user has no stored name, the Signature created on the typed path
    has no typed text either. *)
Lemma typed_signature_may_be_absent :
  delivers bobEnv signedRequest (checkoutCompleted bobPledge) ∧
  metadata_get bobPledge "source" = Some "landing" ∧
  Number_ bobEnv (client_reference_id bobPledge) = Some 8 ∧
  users (db sampleWorld) !! 8 = Some bob ∧
  (∀ img, ¬ resolvesImage bobEnv bobPledge img) ∧
  (handler bobEnv signedRequest sampleWorld).1 = Returned ok200 ∧
  ∃ row, created (signatures (db sampleWorld))
           (signatures (db (handler bobEnv signedRequest sampleWorld).2)) 0%nat row ∧
         populated (sig_typedSignature row) = false.
Proof.
  split; [split; vm_compute; reflexivity|].
  do 3 (split; [vm_compute; reflexivity|]).
  split; [intros img (ref & Hmd & _); vm_compute in Hmd; discriminate Hmd|].
  split; [vm_compute; reflexivity|].
  exists {| sig_fieldId := 0; sig_recipientId := 0;
            sig_signatureImageAsBase64 := None; sig_typedSignature := None |}.
  split; [split|]; vm_compute; reflexivity.
Qed.

(** C2 (amended).  For every checkout.session.completed event with
    metadata.source = "landing", a resolvable user and no signature-image
    reference that resolves in the cache, every Signature record the
    request creates has no image artifact, and its typed-text artifact is
    the metadata signatureText when that is a non-empty string and the
    user's stored name otherwise; the typed text is non-empty exactly
    when the signatureText or the stored name is a non-empty string.
    When the template loads and the text insertion succeeds, the request
    is answered HTTP 200 and such a record is created. *)
Theorem typed_signature_recorded env req session uid user w :
  delivers env req (checkoutCompleted session) →
  metadata_get session "source" = Some "landing" →
  Number_ env (client_reference_id session) = Some uid →
  users (db w) !! uid = Some user →
  (∀ img, ¬ resolvesImage env session img) →
  let text := match metadata_get session "signatureText" with
              | Some t => if decide (t = "") then user_name user else Some t
              | None => user_name user
              end in
  (∀ id row,
      created (signatures (db w)) (signatures (db (handler env req w).2)) id row →
      sig_signatureImageAsBase64 row = None ∧ sig_typedSignature row = text) ∧
  (populated text = true ↔
     (∃ t, metadata_get session "signatureText" = Some t ∧ t ≠ "") ∨
     (∃ n, user_name user = Some n ∧ n ≠ "")) ∧
  (∀ tpl data,
      readFileSync env pledgePath = Some tpl →
      insertTextInPDF env tpl (default "" text) 77 638 0 = Some data →
      (handler env req w).1 = Returned ok200 ∧
      ∃ row, created (signatures (db w)) (signatures (db (handler env req w).2))
               (nextId (signatures (db w))) row).
Proof.
  intros Hev Hsrc Huid Huser Hno text.
  assert (Htext : signatureTextOf session user = text).
  { unfold signatureTextOf, text.
    destruct (metadata_get session "signatureText") as [t|]; [|done].
    case_decide as Ht; [by subst|]. apply truthy_true in Ht. by rewrite Ht. }
  pose proof (unresolved_url env session Hno) as Hurl.
  rewrite (handler_landing env req session w Hev Hsrc).
  unfold provisionOutcome. cbn [verified db]. rewrite Huid, Huser. cbv zeta.
  rewrite Hurl, Htext. unfold drawMark. cbn [truthy].
  split; [|split].
  - intros id row.
    destruct (readFileSync env pledgePath) as [tpl|]; [|intros []%created_same].
    destruct (insertTextInPDF env tpl _ 77 638 0) as [data|]; [|intros []%created_same].
    intros [-> ->]%created_insert. done.
  - unfold text. split.
    + destruct (metadata_get session "signatureText") as [t|].
      * case_decide as Ht.
        -- destruct (user_name user) as [n|]; [|done]. cbn. rewrite truthy_true. eauto.
        -- eauto.
      * destruct (user_name user) as [n|]; [|done]. cbn. rewrite truthy_true. eauto.
    + intros [(t & -> & Ht) | (n & Hn & Hne)].
      * case_decide; [done|]. cbn. by apply truthy_true.
      * assert (populated (user_name user) = true) by (rewrite Hn; cbn; by apply truthy_true).
        destruct (metadata_get session "signatureText") as [t|]; [|done].
        case_decide as Ht; [done|]. cbn. by apply truthy_true.
  - intros tpl data -> ->. split; [done|].
    eexists. apply insert_created.
Qed.

Lemma typed_signature_recorded_witness :
  (∀ id row,
      created (signatures (db sampleWorld))
        (signatures (db (handler typedEnv signedRequest sampleWorld).2)) id row →
      sig_signatureImageAsBase64 row = None ∧ sig_typedSignature row = Some "A. Lovelace") ∧
  (populated (Some "A. Lovelace") = true ↔
     (∃ t, metadata_get typedPledge "signatureText" = Some t ∧ t ≠ "") ∨
     (∃ n, user_name alice = Some n ∧ n ≠ "")) ∧
  (∀ tpl data,
      readFileSync typedEnv pledgePath = Some tpl →
      insertTextInPDF typedEnv tpl "A. Lovelace" 77 638 0 = Some data →
      (handler typedEnv signedRequest sampleWorld).1 = Returned ok200 ∧
      ∃ row, created (signatures (db sampleWorld))
               (signatures (db (handler typedEnv signedRequest sampleWorld).2))
               (nextId (signatures (db sampleWorld))) row).
Proof.
  apply (typed_signature_recorded typedEnv signedRequest typedPledge 7 alice sampleWorld).
  - split; reflexivity.
  - reflexivity.
  - reflexivity.
  - reflexivity.
  - intros img (ref & Hmd & _). vm_compute in Hmd. discriminate Hmd.
Defined.

(** C3.  For every checkout.session.completed event with
    metadata.source = "landing", a resolvable user and a signature-image
    reference that resolves in the cache to the image [img], every
    Signature record the request creates has the non-empty image [img]
    as its image artifact and the empty string as its typed text.  When
    the template loads and the image insertion succeeds, the request is
    answered HTTP 200, such a record is created, and the DocumentData
    created holds the template as initialData and, as data, the content
    with the image inserted, which differs from the template because the
    insertion produces new content. *)
Theorem image_signature_recorded env req session uid user img w :
  delivers env req (checkoutCompleted session) →
  metadata_get session "source" = Some "landing" →
  Number_ env (client_reference_id session) = Some uid →
  users (db w) !! uid = Some user →
  resolvesImage env session img →
  producesNewContent env →
  (∀ id row,
      created (signatures (db w)) (signatures (db (handler env req w).2)) id row →
      sig_signatureImageAsBase64 row = Some img ∧ img ≠ "" ∧
      sig_typedSignature row = Some "") ∧
  (∀ id row,
      (handler env req w).1 = Returned ok200 →
      created (documentDatas (db w)) (documentDatas (db (handler env req w).2)) id row →
      readFileSync env pledgePath = Some (dd_initialData row) ∧
      dd_data row ≠ dd_initialData row) ∧
  (∀ tpl data,
      readFileSync env pledgePath = Some tpl →
      insertImageInPDF env tpl img 77 638 0 = Some data →
      (handler env req w).1 = Returned ok200 ∧
      (∃ row, created (signatures (db w)) (signatures (db (handler env req w).2))
                (nextId (signatures (db w))) row) ∧
      created (documentDatas (db w)) (documentDatas (db (handler env req w).2))
        (nextId (documentDatas (db w)))
        {| dd_type := BYTES_64; dd_data := data; dd_initialData := tpl |}).
Proof.
  intros Hev Hsrc Huid Huser Himg Hnew.
  destruct (resolved_url env session img Himg) as [Hurl Htruthy].
  rewrite (handler_landing env req session w Hev Hsrc).
  unfold provisionOutcome. cbn [verified db]. rewrite Huid, Huser. cbv zeta.
  rewrite Hurl. unfold drawMark. rewrite Htruthy.
  split; [|split].
  - intros id row.
    destruct (readFileSync env pledgePath) as [tpl|]; [|intros []%created_same].
    destruct (insertImageInPDF env tpl img 77 638 0) as [data|]; [|intros []%created_same].
    intros [-> ->]%created_insert. cbn. unfold imageArtifact, typedArtifact.
    rewrite Htruthy. by apply truthy_true in Htruthy.
  - intros id row.
    destruct (readFileSync env pledgePath) as [tpl|]; [|done].
    destruct (insertImageInPDF env tpl img 77 638 0) as [data|] eqn:Hdata; [|done].
    intros _ [-> ->]%created_insert. cbn. split; [done|]. by eapply Hnew.
  - intros tpl data -> ->. split; [done|]. split.
    + eexists. apply insert_created.
    + apply insert_created.
Qed.

Lemma image_signature_recorded_witness :
  (∀ id row,
      created (signatures (db sampleWorld))
        (signatures (db (handler drawnEnv signedRequest sampleWorld).2)) id row →
      sig_signatureImageAsBase64 row = Some "data:image/png;base64,iVBORw0KGgo=" ∧
      "data:image/png;base64,iVBORw0KGgo=" ≠ "" ∧
      sig_typedSignature row = Some "") ∧
  (∀ id row,
      (handler drawnEnv signedRequest sampleWorld).1 = Returned ok200 →
      created (documentDatas (db sampleWorld))
        (documentDatas (db (handler drawnEnv signedRequest sampleWorld).2)) id row →
      readFileSync drawnEnv pledgePath = Some (dd_initialData row) ∧
      dd_data row ≠ dd_initialData row) ∧
  (∀ tpl data,
      readFileSync drawnEnv pledgePath = Some tpl →
      insertImageInPDF drawnEnv tpl "data:image/png;base64,iVBORw0KGgo=" 77 638 0
      = Some data →
      (handler drawnEnv signedRequest sampleWorld).1 = Returned ok200 ∧
      (∃ row, created (signatures (db sampleWorld))
                (signatures (db (handler drawnEnv signedRequest sampleWorld).2))
                (nextId (signatures (db sampleWorld))) row) ∧
      created (documentDatas (db sampleWorld))
        (documentDatas (db (handler drawnEnv signedRequest sampleWorld).2))
        (nextId (documentDatas (db sampleWorld)))
        {| dd_type := BYTES_64; dd_data := data; dd_initialData := tpl |}).
Proof.
  apply (image_signature_recorded drawnEnv signedRequest drawnPledge 7 alice
           "data:image/png;base64,iVBORw0KGgo=" sampleWorld).
  - split; reflexivity.
  - reflexivity.
  - reflexivity.
  - reflexivity.
  - exists "abc". repeat split; try reflexivity; discriminate.
  - apply sampleEnv_producesNewContent.
Defined.

(** C4, as stated, fails: when the drawn signature has left the cache,
    the session carries no signatureText and the user has no stored
    name, the Signature created has neither artifact populated. *)
Lemma signature_may_have_no_artifact :
  ∃ row, created (signatures (db sampleWorld))
           (signatures (db (handler expiredEnv signedRequest sampleWorld).2)) 0%nat row ∧
         populated (sig_signatureImageAsBase64 row) = false ∧
         populated (sig_typedSignature row) = false.
Proof.
  exists {| sig_fieldId := 0; sig_recipientId := 0;
            sig_signatureImageAsBase64 := None; sig_typedSignature := None |}.
  split; [split|split]; vm_compute; reflexivity.
Qed.

(** C4 (amended).  For every Signature record the handler creates, over
    all inputs, at most one of signatureImageAsBase64 and typedSignature
    is populated.  The record comes from a landing checkout of a stored
    user; its image is populated exactly when the session's reference
    resolved in the cache, and its typed text exactly when no reference
    resolved and the metadata signatureText or, failing that, the user's
    stored name is a non-empty string. *)
Theorem signature_artifacts_exclusive env req w id row :
  created (signatures (db w)) (signatures (db (handler env req w).2)) id row →
  populated (sig_signatureImageAsBase64 row) && populated (sig_typedSignature row) = false ∧
  ∃ session uid user,
    delivers env req (checkoutCompleted session) ∧
    metadata_get session "source" = Some "landing" ∧
    Number_ env (client_reference_id session) = Some uid ∧
    users (db w) !! uid = Some user ∧
    (populated (sig_signatureImageAsBase64 row) = true ↔
       ∃ img, resolvesImage env session img) ∧
    (populated (sig_typedSignature row) = true ↔
       (∀ img, ¬ resolvesImage env session img) ∧
       populated (signatureTextOf session user) = true).
Proof.
  intros (session & uid & user & tpl & data & Hev & Hsrc & Huid & Huser & _ & _ & _ & ->)
    %handler_creates_signature.
  cbn [pledgeSignature sig_signatureImageAsBase64 sig_typedSignature].
  rewrite imageArtifact_populated, typedArtifact_populated.
  split; [by destruct (truthy _)|].
  exists session, uid, user. do 4 (split; [done|]). split; split.
  - intros Hu. eexists. by apply url_resolved.
  - intros [img [<- Himg]%resolved_url]. done.
  - intros [Hu Htext]%andb_prop. split; [|done].
    intros img [<- Himg]%resolved_url. by rewrite Himg in Hu.
  - intros [Hno Htext]. by rewrite (unresolved_url env session Hno), Htext.
Qed.

Lemma signature_artifacts_exclusive_witness :
  populated (Some "data:image/png;base64,iVBORw0KGgo=") && populated (Some "") = false ∧
  ∃ session uid user,
    delivers drawnEnv signedRequest (checkoutCompleted session) ∧
    metadata_get session "source" = Some "landing" ∧
    Number_ drawnEnv (client_reference_id session) = Some uid ∧
    users (db sampleWorld) !! uid = Some user ∧
    (populated (Some "data:image/png;base64,iVBORw0KGgo=") = true ↔
       ∃ img, resolvesImage drawnEnv session img) ∧
    (populated (Some "") = true ↔
       (∀ img, ¬ resolvesImage drawnEnv session img) ∧
       populated (signatureTextOf session user) = true).
Proof.
  apply (signature_artifacts_exclusive drawnEnv signedRequest sampleWorld 0%nat
           {| sig_fieldId := 0; sig_recipientId := 0;
              sig_signatureImageAsBase64 := Some "data:image/png;base64,iVBORw0KGgo=";
              sig_typedSignature := Some "" |}).
  split; vm_compute; reflexivity.
Defined.

(** ** Document content and the signature field *)

(** C9.  In every provisioning run that completes (a landing checkout
    answered HTTP 200), the DocumentData record is created with data and
    initialData both equal to the template's base64 content; the only
    later write to it replaces data with the content the mark was drawn
    into, so that afterwards the record holds that content as data and
    the untouched template as initialData. *)
Theorem initialData_keeps_template env req session w resp :
  delivers env req (checkoutCompleted session) →
  metadata_get session "source" = Some "landing" →
  (handler env req w).1 = Returned resp →
  res_status resp = 200 →
  ∃ uid user tpl data,
    Number_ env (client_reference_id session) = Some uid ∧
    users (db w) !! uid = Some user ∧
    readFileSync env pledgePath = Some tpl ∧
    drawMark env tpl (signatureDataUrlOf env session) (signatureTextOf session user)
    = Some data ∧
    let ddid := nextId (documentDatas (db w)) in
    let docid := nextId (documents (db w)) in
    let rid := nextId (recipients (db w)) in
    let fid := nextId (fields (db w)) in
    calls (handler env req w).2 =
      calls w ++ UserFindFirst uid :: cacheCalls session ++
        [DocumentDataCreate ddid
           {| dd_type := BYTES_64; dd_data := tpl; dd_initialData := tpl |};
         DocumentCreate docid (pledgeDocument user ddid);
         RecipientCreate rid (pledgeRecipient env user docid);
         FieldCreate fid (pledgeField docid rid);
         SignatureCreate (nextId (signatures (db w)))
           (pledgeSignature fid rid (signatureDataUrlOf env session)
              (signatureTextOf session user));
         DocumentUpdateData docid data] ∧
    documentDatas (db w) !! ddid = None ∧
    documents (db (handler env req w).2) !! docid = Some (pledgeDocument user ddid) ∧
    documentDatas (db (handler env req w).2) =
      <[ddid := {| dd_type := BYTES_64; dd_data := data; dd_initialData := tpl |}]>
        (documentDatas (db w)).
Proof.
  intros Hev Hsrc. rewrite (handler_landing env req session w Hev Hsrc).
  unfold provisionOutcome. cbn [verified db].
  destruct (Number_ env (client_reference_id session)) as [uid|] eqn:Huid; [|done].
  destruct (users (db w) !! uid) as [user|] eqn:Huser; [|by intros [= <-]].
  cbv zeta.
  destruct (readFileSync env pledgePath) as [tpl|] eqn:Htpl; [|done].
  destruct (drawMark env tpl _ _) as [data|] eqn:Hdata; [|done].
  intros _ _. exists uid, user, tpl, data. do 4 (split; [done|]).
  cbn [snd called calls db signed documentDatas documents drafted].
  split; [done|]. split; [apply nextId_fresh|]. split; [apply lookup_insert_eq|done].
Qed.

Lemma initialData_keeps_template_witness :
  ∃ uid user tpl data,
    Number_ drawnEnv (client_reference_id drawnPledge) = Some uid ∧
    users (db sampleWorld) !! uid = Some user ∧
    readFileSync drawnEnv pledgePath = Some tpl ∧
    drawMark drawnEnv tpl (signatureDataUrlOf drawnEnv drawnPledge)
      (signatureTextOf drawnPledge user) = Some data ∧
    let ddid := nextId (documentDatas (db sampleWorld)) in
    let docid := nextId (documents (db sampleWorld)) in
    let rid := nextId (recipients (db sampleWorld)) in
    let fid := nextId (fields (db sampleWorld)) in
    calls (handler drawnEnv signedRequest sampleWorld).2 =
      calls sampleWorld ++ UserFindFirst uid :: cacheCalls drawnPledge ++
        [DocumentDataCreate ddid
           {| dd_type := BYTES_64; dd_data := tpl; dd_initialData := tpl |};
         DocumentCreate docid (pledgeDocument user ddid);
         RecipientCreate rid (pledgeRecipient drawnEnv user docid);
         FieldCreate fid (pledgeField docid rid);
         SignatureCreate (nextId (signatures (db sampleWorld)))
           (pledgeSignature fid rid (signatureDataUrlOf drawnEnv drawnPledge)
              (signatureTextOf drawnPledge user));
         DocumentUpdateData docid data] ∧
    documentDatas (db sampleWorld) !! ddid = None ∧
    documents (db (handler drawnEnv signedRequest sampleWorld).2) !! docid
    = Some (pledgeDocument user ddid) ∧
    documentDatas (db (handler drawnEnv signedRequest sampleWorld).2) =
      <[ddid := {| dd_type := BYTES_64; dd_data := data; dd_initialData := tpl |}]>
        (documentDatas (db sampleWorld)).
Proof.
  apply (initialData_keeps_template drawnEnv signedRequest drawnPledge sampleWorld ok200).
  - split; reflexivity.
  - reflexivity.
  - vm_compute. reflexivity.
  - reflexivity.
Defined.

(** C10.  In every provisioning run, the only Field the request creates
    is a SIGNATURE field at page 0, position (77, 638), with inserted =
    false and customText = "".  It is created as soon as the user is
    found and the template loads, and nothing updates it afterwards: in
    a completed run, where the DocumentData holds the content with the
    signer's mark drawn in, the field's inserted flag is still false. *)
Theorem signature_field_stays_uninserted env req session w :
  delivers env req (checkoutCompleted session) →
  metadata_get session "source" = Some "landing" →
  (∀ id row,
      created (fields (db w)) (fields (db (handler env req w).2)) id row →
      id = nextId (fields (db w)) ∧
      fld_type row = SIGNATURE ∧ fld_page row = 0 ∧
      fld_positionX row = 77 ∧ fld_positionY row = 638 ∧
      fld_inserted row = false ∧ fld_customText row = "") ∧
  (∀ uid user tpl,
      Number_ env (client_reference_id session) = Some uid →
      users (db w) !! uid = Some user →
      readFileSync env pledgePath = Some tpl →
      ∃ row, created (fields (db w)) (fields (db (handler env req w).2))
               (nextId (fields (db w))) row) ∧
  (∀ resp,
      (handler env req w).1 = Returned resp → res_status resp = 200 →
      ∃ row uid user tpl data,
        created (fields (db w)) (fields (db (handler env req w).2))
          (nextId (fields (db w))) row ∧
        fld_inserted row = false ∧
        Number_ env (client_reference_id session) = Some uid ∧
        users (db w) !! uid = Some user ∧
        readFileSync env pledgePath = Some tpl ∧
        drawMark env tpl (signatureDataUrlOf env session) (signatureTextOf session user)
        = Some data ∧
        created (documentDatas (db w)) (documentDatas (db (handler env req w).2))
          (nextId (documentDatas (db w)))
          {| dd_type := BYTES_64; dd_data := data; dd_initialData := tpl |}).
Proof.
  intros Hev Hsrc. rewrite (handler_landing env req session w Hev Hsrc).
  unfold provisionOutcome. cbn [verified db].
  destruct (Number_ env (client_reference_id session)) as [uid|] eqn:Huid.
  2:{ split; [intros ? ? []%created_same | by split]. }
  destruct (users (db w) !! uid) as [user|] eqn:Huser.
  2:{ split; [intros ? ? []%created_same | split].
      - intros uid' user' tpl [= <-] Huser' _. congruence.
      - intros resp [= <-]. cbn. discriminate. }
  cbv zeta.
  destruct (readFileSync env pledgePath) as [tpl|] eqn:Htpl.
  2:{ split; [intros ? ? []%created_same | by split]. }
  destruct (drawMark env tpl _ _) as [data|] eqn:Hdata.
  - split; [|split].
    + by intros id row [-> ->]%created_insert.
    + intros ? ? ? _ _ _. eexists. apply insert_created.
    + intros resp _ _. eexists _, uid, user, tpl, data.
      split; [apply insert_created|]. do 5 (split; [done|]).
      apply insert_created.
  - split; [|split].
    + by intros id row [-> ->]%created_insert.
    + intros ? ? ? _ _ _. eexists. apply insert_created.
    + done.
Qed.

Lemma signature_field_stays_uninserted_witness :
  (∀ id row,
      created (fields (db sampleWorld))
        (fields (db (handler typedEnv signedRequest sampleWorld).2)) id row →
      id = nextId (fields (db sampleWorld)) ∧
      fld_type row = SIGNATURE ∧ fld_page row = 0 ∧
      fld_positionX row = 77 ∧ fld_positionY row = 638 ∧
      fld_inserted row = false ∧ fld_customText row = "") ∧
  (∀ uid user tpl,
      Number_ typedEnv (client_reference_id typedPledge) = Some uid →
      users (db sampleWorld) !! uid = Some user →
      readFileSync typedEnv pledgePath = Some tpl →
      ∃ row, created (fields (db sampleWorld))
               (fields (db (handler typedEnv signedRequest sampleWorld).2))
               (nextId (fields (db sampleWorld))) row) ∧
  (∀ resp,
      (handler typedEnv signedRequest sampleWorld).1 = Returned resp →
      res_status resp = 200 →
      ∃ row uid user tpl data,
        created (fields (db sampleWorld))
          (fields (db (handler typedEnv signedRequest sampleWorld).2))
          (nextId (fields (db sampleWorld))) row ∧
        fld_inserted row = false ∧
        Number_ typedEnv (client_reference_id typedPledge) = Some uid ∧
        users (db sampleWorld) !! uid = Some user ∧
        readFileSync typedEnv pledgePath = Some tpl ∧
        drawMark typedEnv tpl (signatureDataUrlOf typedEnv typedPledge)
          (signatureTextOf typedPledge user) = Some data ∧
        created (documentDatas (db sampleWorld))
          (documentDatas (db (handler typedEnv signedRequest sampleWorld).2))
          (nextId (documentDatas (db sampleWorld)))
          {| dd_type := BYTES_64; dd_data := data; dd_initialData := tpl |}).
Proof.
  apply (signature_field_stays_uninserted typedEnv signedRequest typedPledge sampleWorld).
  - split; reflexivity.
  - reflexivity.
Defined.

(** * Further properties of the endpoint *)

(** ** Every way a request can go *)

Lemma provisionOutcome_cases (P : Outcome NextApiResponse * World → Prop) env session w :
  (Number_ env (client_reference_id session) = None →
   P (Threw PrismaValidationError, w)) →
  (∀ uid, Number_ env (client_reference_id session) = Some uid →
          users (db w) !! uid = None →
          P (Returned (json 500 false "User not found"),
             called w (db w) [UserFindFirst uid])) →
  (∀ uid user, Number_ env (client_reference_id session) = Some uid →
               users (db w) !! uid = Some user →
               readFileSync env pledgePath = None →
               P (Threw FileReadError,
                  called w (db w) (UserFindFirst uid :: cacheCalls session))) →
  (∀ uid user tpl,
      Number_ env (client_reference_id session) = Some uid →
      users (db w) !! uid = Some user →
      readFileSync env pledgePath = Some tpl →
      drawMark env tpl (signatureDataUrlOf env session) (signatureTextOf session user)
      = None →
      P (Threw PdfError,
         called w (drafted env user tpl (db w))
           (UserFindFirst uid :: cacheCalls session ++ draftCalls env user tpl (db w)))) →
  (∀ uid user tpl data,
      Number_ env (client_reference_id session) = Some uid →
      users (db w) !! uid = Some user →
      readFileSync env pledgePath = Some tpl →
      drawMark env tpl (signatureDataUrlOf env session) (signatureTextOf session user)
      = Some data →
      P (Returned ok200,
         called w (signed env user tpl data (signatureDataUrlOf env session)
                     (signatureTextOf session user) (db w))
           (UserFindFirst uid :: cacheCalls session ++ draftCalls env user tpl (db w)
              ++ signCalls data (signatureDataUrlOf env session)
                   (signatureTextOf session user) (db w)))) →
  P (provisionOutcome env session w).
Proof.
  intros Hnum Hnouser Hnofile Hnopdf Hdone. unfold provisionOutcome.
  destruct (Number_ env (client_reference_id session)) as [uid|] eqn:Huid; [|auto].
  destruct (users (db w) !! uid) as [user|] eqn:Huser; [|auto].
  cbv zeta.
  destruct (readFileSync env pledgePath) as [tpl|] eqn:Htpl; [|eauto].
  destruct (drawMark env tpl _ _) as [data|] eqn:Hdata; eauto.
Qed.

Lemma handler_cases (P : Outcome NextApiResponse * World → Prop) env req w :
  (signature_missing req →
   P (Returned (json 400 false "No signature found in request"), w)) →
  (signature_invalid env req →
   P (Threw StripeSignatureVerificationError,
      {| db := db w; calls := calls w;
         console := (console w ++ [["[stripe]"; "constructing body..."]])
                      ++ [["[stripe]"; "constructed body"]] |})) →
  (∀ s row,
      delivers env req (subscriptionUpdated s) →
      subscriptions (db w) !! customerIdOf (customer s) = Some row →
      P (Returned ok200,
         called (verified (subscriptionUpdated s) w)
           (with_subscriptions (db w)
              (<[customerIdOf (customer s) := apply_update (updateOf env s) row]>
                 (subscriptions (db w))))
           [SubscriptionUpdate (customerIdOf (customer s)) (updateOf env s)])) →
  (∀ s,
      delivers env req (subscriptionUpdated s) →
      subscriptions (db w) !! customerIdOf (customer s) = None →
      P (Threw RecordNotFound,
         called (verified (subscriptionUpdated s) w) (db w)
           [SubscriptionUpdate (customerIdOf (customer s)) (updateOf env s)])) →
  (∀ ev,
      delivers env req ev →
      type ev = "customer.subscription.updated" ∨ type ev = "checkout.session.completed" →
      P (Threw TypeError, verified ev w)) →
  (∀ session,
      delivers env req (checkoutCompleted session) →
      metadata_get session "source" ≠ Some "landing" →
      P (Returned ok200, verified (checkoutCompleted session) w)) →
  (∀ session,
      delivers env req (checkoutCompleted session) →
      metadata_get session "source" = Some "landing" →
      P (provisionOutcome env session (verified (checkoutCompleted session) w))) →
  (∀ ev,
      delivers env req ev →
      type ev ≠ "customer.subscription.updated" →
      type ev ≠ "checkout.session.completed" →
      P (Returned (json 400 false "Unhandled webhook event"), unhandled ev w)) →
  P (handler env req w).
Proof.
  intros Hmiss Hbad Hsub Hnosub Hcast Helse Hland Hother.
  destruct (truthy (signatureHeader req)) eqn:Hsig.
  2:{ rewrite (handler_missing env req w Hsig). by apply Hmiss. }
  destruct (constructEvent env (raw_body req) (signatureHeader req) (webhookSecret env))
    as [[ty obj]|] eqn:Hev.
  2:{ rewrite (handler_invalid env req w (conj Hsig Hev)). by apply Hbad. }
  pose proof (conj Hsig Hev : delivers env req _) as Hdel.
  rewrite (handler_verified env req _ w Hdel).
  destruct (String.eqb_spec ty "customer.subscription.updated") as [->|Hty1].
  { destruct obj as [s| |];
      try (refine (Hcast _ Hdel _); by left).
    change (Build_StripeEvent _ _) with (subscriptionUpdated s) in *.
    rewrite dispatch_subscription. cbn [verified db].
    destruct (subscriptions (db w) !! _) eqn:Hrow; eauto. }
  destruct (String.eqb_spec ty "checkout.session.completed") as [->|Hty2].
  2:{ specialize (Hother _ Hdel Hty1 Hty2). revert Hother.
      unfold dispatch. cbn [type].
      destruct (String.eqb_spec ty "customer.subscription.updated"); [done|].
      destruct (String.eqb_spec ty "checkout.session.completed"); [done|].
      done. }
  destruct obj as [|session|];
    try (refine (Hcast _ Hdel _); by right).
  change (Build_StripeEvent _ _) with (checkoutCompleted session) in *.
  destruct (decide (metadata_get session "source" = Some "landing")) as [Hsrc|Hsrc].
  - rewrite (dispatch_landing env session _ Hsrc). auto.
  - rewrite (dispatch_elsewhere env session _ Hsrc). auto.
Qed.

Lemma delivers_unique env req ev1 ev2 :
  delivers env req ev1 → delivers env req ev2 → ev1 = ev2.
Proof. intros [_ H1] [_ H2]. congruence. Qed.

Lemma grewByAtMostOne_kept {A} (before after : gmap nat A) :
  grewByAtMostOne before after →
  before ⊆ after ∧ (size after ≤ S (size before))%nat.
Proof.
  intros [-> | [row ->]].
  - split; [done | lia].
  - split.
    + apply insert_subseteq, nextId_fresh.
    + rewrite map_size_insert_None by apply nextId_fresh. lia.
Qed.

Lemma grew_same {A} (t : gmap nat A) : grewByAtMostOne t t.
Proof. by left. Qed.

Lemma grew_insert {A} (t : gmap nat A) row : grewByAtMostOne t (<[nextId t := row]> t).
Proof. right. by exists row. Qed.

(** ** Responses and failures *)

(** X1.  Whatever the request and the verified event, a response the
    handler sends is one of four: 400 "No signature found in request",
    200 "Webhook received", 500 "User not found" or 400 "Unhandled
    webhook event". *)
Theorem responses_are_four env req w resp :
  (handler env req w).1 = Returned resp →
  resp = json 400 false "No signature found in request" ∨
  resp = json 200 true "Webhook received" ∨
  resp = json 500 false "User not found" ∨
  resp = json 400 false "Unhandled webhook event".
Proof.
  apply (handler_cases (λ r, r.1 = Returned resp → _) env req w); cbn [fst].
  - intros _ [= <-]. auto.
  - done.
  - intros s row _ _ [= <-]. auto.
  - done.
  - done.
  - intros session _ _ [= <-]. auto.
  - intros session _ _.
    apply (provisionOutcome_cases (λ r, r.1 = Returned resp → _)); cbn [fst];
      try done; intros; simplify_eq; auto.
  - intros ev _ _ _ [= <-]. auto.
Qed.

Lemma responses_are_four_witness :
  json 500 false "User not found" = json 400 false "No signature found in request" ∨
  json 500 false "User not found" = json 200 true "Webhook received" ∨
  json 500 false "User not found" = json 500 false "User not found" ∨
  json 500 false "User not found" = json 400 false "Unhandled webhook event".
Proof.
  apply (responses_are_four ghostEnv signedRequest sampleWorld).
  vm_compute. reflexivity.
Defined.

(** X2.  The guard of lines 127-129 never fires: no request makes the
    handler fail with "Document ... has no document data", because the
    document is created with the content row created just before it. *)
Theorem document_always_has_data env req w documentId :
  (handler env req w).1 ≠ Threw (DocumentHasNoData documentId).
Proof.
  apply (handler_cases (λ r, r.1 ≠ Threw (DocumentHasNoData documentId)) env req w);
    cbn [fst]; try done.
  intros session _ _.
  apply (provisionOutcome_cases (λ r, r.1 ≠ Threw (DocumentHasNoData documentId)));
    cbn [fst]; done.
Qed.

(** X3.  A verified event of any type other than
    customer.subscription.updated and checkout.session.completed is
    answered 400 "Unhandled webhook event"; the database is not touched,
    no persistence or cache call is issued, and the last line logged
    names the event type. *)
Theorem unhandled_event_is_rejected env req ev w :
  delivers env req ev →
  type ev ≠ "customer.subscription.updated" →
  type ev ≠ "checkout.session.completed" →
  (handler env req w).1 = Returned (json 400 false "Unhandled webhook event") ∧
  db (handler env req w).2 = db w ∧
  calls (handler env req w).2 = calls w ∧
  last (console (handler env req w).2)
  = Some ["[stripe]"; "Unhandled webhook event"; type ev].
Proof.
  intros Hev Hty1 Hty2. rewrite (handler_verified env req ev w Hev).
  unfold dispatch.
  destruct (String.eqb_spec (type ev) "customer.subscription.updated"); [done|].
  destruct (String.eqb_spec (type ev) "checkout.session.completed"); [done|].
  run. repeat split. apply last_snoc.
Qed.

Lemma unhandled_event_is_rejected_witness :
  (handler invoiceEnv signedRequest sampleWorld).1
  = Returned (json 400 false "Unhandled webhook event") ∧
  db (handler invoiceEnv signedRequest sampleWorld).2 = db sampleWorld ∧
  calls (handler invoiceEnv signedRequest sampleWorld).2 = calls sampleWorld ∧
  last (console (handler invoiceEnv signedRequest sampleWorld).2)
  = Some ["[stripe]"; "Unhandled webhook event"; type invoicePaid].
Proof.
  apply (unhandled_event_is_rejected invoiceEnv signedRequest invoicePaid sampleWorld).
  - split; reflexivity.
  - discriminate.
  - discriminate.
Defined.

(** X4.  A landing checkout whose client reference names no stored user
    is answered 500 "User not found": the user lookup is the only call
    issued (the cache is not consulted) and the database is unchanged. *)
Theorem unknown_user_answers_500 env req session uid w :
  delivers env req (checkoutCompleted session) →
  metadata_get session "source" = Some "landing" →
  Number_ env (client_reference_id session) = Some uid →
  users (db w) !! uid = None →
  (handler env req w).1 = Returned (json 500 false "User not found") ∧
  db (handler env req w).2 = db w ∧
  calls (handler env req w).2 = calls w ++ [UserFindFirst uid].
Proof.
  intros Hev Hsrc Huid Huser. rewrite (handler_landing env req session w Hev Hsrc).
  unfold provisionOutcome. cbn [verified db]. rewrite Huid, Huser. done.
Qed.

Lemma unknown_user_answers_500_witness :
  (handler ghostEnv signedRequest sampleWorld).1
  = Returned (json 500 false "User not found") ∧
  db (handler ghostEnv signedRequest sampleWorld).2 = db sampleWorld ∧
  calls (handler ghostEnv signedRequest sampleWorld).2
  = calls sampleWorld ++ [UserFindFirst 99].
Proof.
  apply (unknown_user_answers_500 ghostEnv signedRequest ghostPledge 99 sampleWorld).
  - split; reflexivity.
  - reflexivity.
  - reflexivity.
  - reflexivity.
Defined.

(** ** The reconciler's footprint *)

(** X5.  A subscription update writes five columns of one row: the row
    of the event's customer gets the event's plan id, mapped status,
    cancel flag, period end in milliseconds and the current time, and
    keeps its id, user and creation time; every other subscription row,
    the set of customers and every other table are as before. *)
Theorem reconciler_writes_one_row env req s row w :
  delivers env req (subscriptionUpdated s) →
  subscriptions (db w) !! customerIdOf (customer s) = Some row →
  subscriptions (db (handler env req w).2) !! customerIdOf (customer s)
  = Some {| sub_id := sub_id row; sub_userId := sub_userId row;
            sub_createdAt := sub_createdAt row;
            sub_planId := plan_id s;
            sub_status := matchStatus (status s);
            sub_cancelAtPeriodEnd := cancel_at_period_end s;
            sub_periodEnd := current_period_end s * 1000;
            sub_updatedAt := now env |} ∧
  (∀ c, c ≠ customerIdOf (customer s) →
        subscriptions (db (handler env req w).2) !! c = subscriptions (db w) !! c) ∧
  dom (subscriptions (db (handler env req w).2)) = dom (subscriptions (db w)) ∧
  users (db (handler env req w).2) = users (db w) ∧
  documentDatas (db (handler env req w).2) = documentDatas (db w) ∧
  documents (db (handler env req w).2) = documents (db w) ∧
  recipients (db (handler env req w).2) = recipients (db w) ∧
  fields (db (handler env req w).2) = fields (db w) ∧
  signatures (db (handler env req w).2) = signatures (db w).
Proof.
  intros Hev Hrow.
  rewrite (handler_verified env req _ w Hev), dispatch_subscription.
  cbn [verified db]. rewrite Hrow. run.
  split; [apply lookup_insert_eq|]. split.
  - intros c Hc. by rewrite lookup_insert_ne.
  - split; [|done]. apply dom_insert_lookup_L. eauto.
Qed.

Lemma reconciler_writes_one_row_witness :
  subscriptions (db (handler downgradeEnv signedRequest sampleWorld).2) !! "cus_123"
  = Some {| sub_id := 1; sub_userId := 7; sub_createdAt := 1690000000000;
            sub_planId := "price_free"; sub_status := INACTIVE;
            sub_cancelAtPeriodEnd := true; sub_periodEnd := 1705270400 * 1000;
            sub_updatedAt := 1700000500000 |} ∧
  (∀ c, c ≠ "cus_123" →
        subscriptions (db (handler downgradeEnv signedRequest sampleWorld).2) !! c
        = subscriptions (db sampleWorld) !! c) ∧
  dom (subscriptions (db (handler downgradeEnv signedRequest sampleWorld).2))
  = dom (subscriptions (db sampleWorld)) ∧
  users (db (handler downgradeEnv signedRequest sampleWorld).2) = users (db sampleWorld) ∧
  documentDatas (db (handler downgradeEnv signedRequest sampleWorld).2)
  = documentDatas (db sampleWorld) ∧
  documents (db (handler downgradeEnv signedRequest sampleWorld).2)
  = documents (db sampleWorld) ∧
  recipients (db (handler downgradeEnv signedRequest sampleWorld).2)
  = recipients (db sampleWorld) ∧
  fields (db (handler downgradeEnv signedRequest sampleWorld).2) = fields (db sampleWorld) ∧
  signatures (db (handler downgradeEnv signedRequest sampleWorld).2)
  = signatures (db sampleWorld).
Proof.
  apply (reconciler_writes_one_row downgradeEnv signedRequest downgrade
           {| sub_id := 1; sub_userId := 7; sub_createdAt := 1690000000000;
              sub_planId := "price_old"; sub_status := INACTIVE;
              sub_cancelAtPeriodEnd := true; sub_periodEnd := 1695000000000;
              sub_updatedAt := 1690000000000 |} sampleWorld).
  - split; reflexivity.
  - reflexivity.
Defined.

(** X6.  The last delivery wins: after two subscription updates for the
    same stored customer the subscription table is what the second
    update alone would have left; nothing of the first survives. *)
Theorem last_subscription_update_wins env1 env2 req1 req2 s1 s2 w :
  delivers env1 req1 (subscriptionUpdated s1) →
  delivers env2 req2 (subscriptionUpdated s2) →
  customerIdOf (customer s1) = customerIdOf (customer s2) →
  is_Some (subscriptions (db w) !! customerIdOf (customer s1)) →
  subscriptions (db (handler env2 req2 (handler env1 req1 w).2).2)
  = subscriptions (db (handler env2 req2 w).2).
Proof.
  intros Hev1 Hev2 Hcid [row Hrow].
  rewrite (handler_verified env1 req1 _ w Hev1), dispatch_subscription.
  cbn [verified db]. rewrite Hrow. run.
  rewrite (handler_verified env2 req2 _ _ Hev2), dispatch_subscription.
  rewrite (handler_verified env2 req2 _ w Hev2), dispatch_subscription.
  cbn [verified db subscriptions]. rewrite <- Hcid, lookup_insert_eq, Hrow. run.
  by rewrite insert_insert_eq.
Qed.

Lemma last_subscription_update_wins_witness :
  subscriptions
    (db (handler downgradeEnv signedRequest (handler renewalEnv signedRequest sampleWorld).2).2)
  = subscriptions (db (handler downgradeEnv signedRequest sampleWorld).2).
Proof.
  apply (last_subscription_update_wins renewalEnv downgradeEnv signedRequest signedRequest
           renewal downgrade sampleWorld).
  - split; reflexivity.
  - split; reflexivity.
  - reflexivity.
  - eexists. reflexivity.
Defined.



(** ** What no request does *)

(** X8.  Over all requests: the handler never touches the user table,
    never adds or removes a subscription, and never deletes or rewrites
    an existing DocumentData, Document, Recipient, Field or Signature
    row; each of these five tables gains at most one row per request. *)
Theorem handler_only_adds env req w :
  users (db (handler env req w).2) = users (db w) ∧
  dom (subscriptions (db (handler env req w).2)) = dom (subscriptions (db w)) ∧
  (documentDatas (db w) ⊆ documentDatas (db (handler env req w).2) ∧
   size (documentDatas (db (handler env req w).2)) ≤ S (size (documentDatas (db w))))%nat ∧
  (documents (db w) ⊆ documents (db (handler env req w).2) ∧
   size (documents (db (handler env req w).2)) ≤ S (size (documents (db w))))%nat ∧
  (recipients (db w) ⊆ recipients (db (handler env req w).2) ∧
   size (recipients (db (handler env req w).2)) ≤ S (size (recipients (db w))))%nat ∧
  (fields (db w) ⊆ fields (db (handler env req w).2) ∧
   size (fields (db (handler env req w).2)) ≤ S (size (fields (db w))))%nat ∧
  (signatures (db w) ⊆ signatures (db (handler env req w).2) ∧
   size (signatures (db (handler env req w).2)) ≤ S (size (signatures (db w))))%nat.
Proof.
  set (P := λ r : Outcome NextApiResponse * World,
    users (db r.2) = users (db w) ∧
    dom (subscriptions (db r.2)) = dom (subscriptions (db w)) ∧
    grewByAtMostOne (documentDatas (db w)) (documentDatas (db r.2)) ∧
    grewByAtMostOne (documents (db w)) (documents (db r.2)) ∧
    grewByAtMostOne (recipients (db w)) (recipients (db r.2)) ∧
    grewByAtMostOne (fields (db w)) (fields (db r.2)) ∧
    grewByAtMostOne (signatures (db w)) (signatures (db r.2))).
  assert (HP : P (handler env req w)).
  { apply handler_cases; unfold P;
      try (intros; cbn [snd db verified unhandled called];
           repeat split; apply grew_same).
    - intros s row _ Hrow. run. cbn [verified db].
      split; [done|]. split; [|repeat split; apply grew_same].
      apply dom_insert_lookup_L. eauto.
    - intros session _ _. apply provisionOutcome_cases;
        intros; cbn [snd db verified called drafted signed users subscriptions
                     documentDatas documents recipients fields signatures];
        repeat split; first [apply grew_same | apply grew_insert]. }
  destruct HP as (Hu & Hs & Hdd & Hdoc & Hr & Hf & Hsig).
  split; [done|]. split; [done|].
  repeat split; by apply grewByAtMostOne_kept.
Qed.

(** X9.  Over all requests: a request that changes the subscription
    table creates no DocumentData, Document, Recipient, Field or
    Signature, and a request that creates any of those leaves the
    subscription table as it was. *)
Theorem reconcile_or_provision env req w :
  subscriptions (db (handler env req w).2) = subscriptions (db w) ∨
  (documentDatas (db (handler env req w).2) = documentDatas (db w) ∧
   documents (db (handler env req w).2) = documents (db w) ∧
   recipients (db (handler env req w).2) = recipients (db w) ∧
   fields (db (handler env req w).2) = fields (db w) ∧
   signatures (db (handler env req w).2) = signatures (db w)).
Proof.
  apply (handler_cases (λ r,
    subscriptions (db r.2) = subscriptions (db w) ∨
    (documentDatas (db r.2) = documentDatas (db w) ∧
     documents (db r.2) = documents (db w) ∧
     recipients (db r.2) = recipients (db w) ∧
     fields (db r.2) = fields (db w) ∧
     signatures (db r.2) = signatures (db w))) env req w);
    try (intros; by left).
  - intros. by right.
  - intros session _ _. apply provisionOutcome_cases; intros; by left.
Qed.

(** ** What a provisioning run leaves behind *)



(** X11.  Over all requests: what a created Signature records is what
    was drawn into the document.  The DocumentData created with it
    holds, as data, the template with the recorded image inserted at
    (77, 638) on page 0 when the Signature has an image, and otherwise
    the template with the recorded typed text (the empty string when
    there is none) inserted at the same place. *)
Theorem recorded_mark_is_drawn env req w id row :
  created (signatures (db w)) (signatures (db (handler env req w).2)) id row →
  ∃ tpl data,
    readFileSync env pledgePath = Some tpl ∧
    created (documentDatas (db w)) (documentDatas (db (handler env req w).2))
      (nextId (documentDatas (db w)))
      {| dd_type := BYTES_64; dd_data := data; dd_initialData := tpl |} ∧
    match sig_signatureImageAsBase64 row with
    | Some image => insertImageInPDF env tpl image 77 638 0 = Some data
    | None =>
        insertTextInPDF env tpl (default "" (sig_typedSignature row)) 77 638 0 = Some data
    end.
Proof.
  intros Hnew.
  destruct (handler_creates_signature env req w id row Hnew)
    as (session & uid & user & tpl & data & Hev & Hsrc & Huid & Huser & Htpl & Hdata & _ & ->).
  rewrite (handler_landing env req session w Hev Hsrc).
  unfold provisionOutcome. cbn [verified db]. rewrite Huid, Huser. cbv zeta.
  rewrite Htpl, Hdata.
  exists tpl, data. split; [done|]. split; [apply insert_created|].
  revert Hdata. unfold drawMark, pledgeSignature, imageArtifact, typedArtifact.
  cbn [sig_signatureImageAsBase64 sig_typedSignature].
  by destruct (truthy (signatureDataUrlOf env session)).
Qed.

Lemma recorded_mark_is_drawn_witness :
  ∃ tpl data,
    readFileSync drawnEnv pledgePath = Some tpl ∧
    created (documentDatas (db sampleWorld))
      (documentDatas (db (handler drawnEnv signedRequest sampleWorld).2))
      (nextId (documentDatas (db sampleWorld)))
      {| dd_type := BYTES_64; dd_data := data; dd_initialData := tpl |} ∧
    insertImageInPDF drawnEnv tpl "data:image/png;base64,iVBORw0KGgo=" 77 638 0 = Some data.
Proof.
  apply (recorded_mark_is_drawn drawnEnv signedRequest sampleWorld 0%nat
           {| sig_fieldId := 0; sig_recipientId := 0;
              sig_signatureImageAsBase64 := Some "data:image/png;base64,iVBORw0KGgo=";
              sig_typedSignature := Some "" |}).
  split; vm_compute; reflexivity.
Defined.

(** X12.  Nothing is rolled back.  When the user is found and the
    template loads but the PDF routine fails, the request fails with the
    routine's error after the DocumentData (still the bare template),
    the Document, the Recipient and the Field have been written; they
    stay in the database, and no Signature is created. *)
Theorem failed_drawing_leaves_draft env req session uid user tpl w :
  delivers env req (checkoutCompleted session) →
  metadata_get session "source" = Some "landing" →
  Number_ env (client_reference_id session) = Some uid →
  users (db w) !! uid = Some user →
  readFileSync env pledgePath = Some tpl →
  drawMark env tpl (signatureDataUrlOf env session) (signatureTextOf session user) = None →
  (handler env req w).1 = Threw PdfError ∧
  created (documentDatas (db w)) (documentDatas (db (handler env req w).2))
    (nextId (documentDatas (db w)))
    {| dd_type := BYTES_64; dd_data := tpl; dd_initialData := tpl |} ∧
  created (documents (db w)) (documents (db (handler env req w).2))
    (nextId (documents (db w))) (pledgeDocument user (nextId (documentDatas (db w)))) ∧
  created (recipients (db w)) (recipients (db (handler env req w).2))
    (nextId (recipients (db w))) (pledgeRecipient env user (nextId (documents (db w)))) ∧
  created (fields (db w)) (fields (db (handler env req w).2))
    (nextId (fields (db w)))
    (pledgeField (nextId (documents (db w))) (nextId (recipients (db w)))) ∧
  signatures (db (handler env req w).2) = signatures (db w).
Proof.
  intros Hev Hsrc Huid Huser Htpl Hdata.
  rewrite (handler_landing env req session w Hev Hsrc).
  unfold provisionOutcome. cbn [verified db]. rewrite Huid, Huser. cbv zeta.
  rewrite Htpl, Hdata.
  split; [done|]. repeat split; first [apply nextId_fresh | apply lookup_insert_eq].
Qed.

Lemma failed_drawing_leaves_draft_witness :
  (handler brokenPdfEnv signedRequest sampleWorld).1 = Threw PdfError ∧
  created (documentDatas (db sampleWorld))
    (documentDatas (db (handler brokenPdfEnv signedRequest sampleWorld).2))
    (nextId (documentDatas (db sampleWorld)))
    {| dd_type := BYTES_64; dd_data := "JVBERi0xLjcK"; dd_initialData := "JVBERi0xLjcK" |} ∧
  created (documents (db sampleWorld))
    (documents (db (handler brokenPdfEnv signedRequest sampleWorld).2))
    (nextId (documents (db sampleWorld)))
    (pledgeDocument alice (nextId (documentDatas (db sampleWorld)))) ∧
  created (recipients (db sampleWorld))
    (recipients (db (handler brokenPdfEnv signedRequest sampleWorld).2))
    (nextId (recipients (db sampleWorld)))
    (pledgeRecipient brokenPdfEnv alice (nextId (documents (db sampleWorld)))) ∧
  created (fields (db sampleWorld))
    (fields (db (handler brokenPdfEnv signedRequest sampleWorld).2))
    (nextId (fields (db sampleWorld)))
    (pledgeField (nextId (documents (db sampleWorld)))
       (nextId (recipients (db sampleWorld)))) ∧
  signatures (db (handler brokenPdfEnv signedRequest sampleWorld).2)
  = signatures (db sampleWorld).
Proof.
  apply (failed_drawing_leaves_draft brokenPdfEnv signedRequest typedPledge 7 alice
           "JVBERi0xLjcK" sampleWorld).
  - split; reflexivity.
  - reflexivity.
  - reflexivity.
  - reflexivity.
  - reflexivity.
  - reflexivity.
Defined.

(** X13.  When the template cannot be read, the request fails before
    anything is written: the user was looked up, the cache possibly
    consulted, and the database is unchanged. *)
Theorem unreadable_template_writes_nothing env req session uid user w :
  delivers env req (checkoutCompleted session) →
  metadata_get session "source" = Some "landing" →
  Number_ env (client_reference_id session) = Some uid →
  users (db w) !! uid = Some user →
  readFileSync env pledgePath = None →
  (handler env req w).1 = Threw FileReadError ∧
  db (handler env req w).2 = db w ∧
  calls (handler env req w).2 = calls w ++ UserFindFirst uid :: cacheCalls session.
Proof.
  intros Hev Hsrc Huid Huser Htpl.
  rewrite (handler_landing env req session w Hev Hsrc).
  unfold provisionOutcome. cbn [verified db]. rewrite Huid, Huser. cbv zeta.
  by rewrite Htpl.
Qed.

Lemma unreadable_template_writes_nothing_witness :
  (handler noTemplateEnv signedRequest sampleWorld).1 = Threw FileReadError ∧
  db (handler noTemplateEnv signedRequest sampleWorld).2 = db sampleWorld ∧
  calls (handler noTemplateEnv signedRequest sampleWorld).2
  = calls sampleWorld ++ UserFindFirst 7 :: cacheCalls typedPledge.
Proof.
  apply (unreadable_template_writes_nothing noTemplateEnv signedRequest typedPledge 7 alice
           sampleWorld).
  - split; reflexivity.
  - reflexivity.
  - reflexivity.
  - reflexivity.
  - reflexivity.
Defined.

(** ** The cache and redelivery *)

Lemma metadata_get_withoutReference session key :
  key ≠ "signatureDataUrl" →
  metadata_get (withoutReference session) key = metadata_get session key.
Proof.
  intros Hkey. unfold metadata_get, withoutReference. cbn [metadata].
  destruct (metadata session) as [md|]; [|done]. cbn. by rewrite lookup_delete_ne.
Qed.

Lemma withoutReference_no_reference session :
  metadata_get (withoutReference session) "signatureDataUrl" = None.
Proof.
  unfold metadata_get, withoutReference. cbn [metadata].
  destruct (metadata session) as [md|]; [|done]. cbn. apply lookup_delete_eq.
Qed.

(** X14.  A reference the cache cannot resolve is as good as none: for a
    landing checkout whose signature-image reference is missing from the
    cache (or empty, or resolves to nothing), the handler gives the
    response, and leaves the database, it would for the same session
    without the reference. *)
Theorem cache_miss_is_no_reference env req session w :
  truthy (signatureHeader req) = true →
  metadata_get session "source" = Some "landing" →
  (∀ img, ¬ resolvesImage env session img) →
  (handler (receiving env (checkoutCompleted session)) req w).1
  = (handler (receiving env (checkoutCompleted (withoutReference session))) req w).1 ∧
  db (handler (receiving env (checkoutCompleted session)) req w).2
  = db (handler (receiving env (checkoutCompleted (withoutReference session))) req w).2.
Proof.
  intros Hsig Hsrc Hno.
  assert (Hurl : signatureDataUrlOf (receiving env (checkoutCompleted session)) session = "")
    by (by apply unresolved_url).
  assert (Hurl' : ∀ env', signatureDataUrlOf env' (withoutReference session) = "").
  { intros env'. unfold signatureDataUrlOf. by rewrite withoutReference_no_reference. }
  assert (Htext : ∀ user, signatureTextOf (withoutReference session) user
                          = signatureTextOf session user).
  { intros user. unfold signatureTextOf. by rewrite metadata_get_withoutReference. }
  rewrite (handler_landing _ req session w) by done.
  rewrite (handler_landing _ req (withoutReference session) w);
    [|done|by rewrite metadata_get_withoutReference].
  unfold provisionOutcome. cbn [verified db receiving Number_ readFileSync withoutReference
                               client_reference_id].
  destruct (Number_ env (client_reference_id session)) as [uid|]; [|done].
  destruct (users (db w) !! uid) as [user|]; [|done]. cbv zeta.
  destruct (readFileSync env pledgePath) as [tpl|]; [|done].
  rewrite Hurl, Hurl', Htext.
  unfold drawMark. cbn [truthy insertTextInPDF receiving].
  destruct (insertTextInPDF env tpl (default "" (signatureTextOf session user)) 77 638 0);
    split; reflexivity.
Qed.

Lemma cache_miss_is_no_reference_witness :
  (handler (receiving typedEnv (checkoutCompleted expiredPledge)) signedRequest sampleWorld).1
  = (handler (receiving typedEnv (checkoutCompleted (withoutReference expiredPledge)))
       signedRequest sampleWorld).1 ∧
  db (handler (receiving typedEnv (checkoutCompleted expiredPledge))
        signedRequest sampleWorld).2
  = db (handler (receiving typedEnv (checkoutCompleted (withoutReference expiredPledge)))
          signedRequest sampleWorld).2.
Proof.
  apply (cache_miss_is_no_reference typedEnv signedRequest expiredPledge sampleWorld).
  - reflexivity.
  - reflexivity.
  - intros img (ref & Hmd & _ & Hget & _).
    vm_compute in Hmd. injection Hmd as <-. vm_compute in Hget. discriminate Hget.
Defined.



(** X19.  A landing checkout is acknowledged with 200 only when it was
    provisioned in full: each of the DocumentData, Document, Recipient,
    Field and Signature tables then holds exactly one row more than
    before, under the key the database chose. *)
Theorem acknowledged_checkout_is_provisioned env req session w :
  delivers env req (checkoutCompleted session) →
  metadata_get session "source" = Some "landing" →
  (handler env req w).1 = Returned ok200 →
  (∃ row, documentDatas (db (handler env req w).2)
          = <[nextId (documentDatas (db w)) := row]> (documentDatas (db w))) ∧
  (∃ row, documents (db (handler env req w).2)
          = <[nextId (documents (db w)) := row]> (documents (db w))) ∧
  (∃ row, recipients (db (handler env req w).2)
          = <[nextId (recipients (db w)) := row]> (recipients (db w))) ∧
  (∃ row, fields (db (handler env req w).2)
          = <[nextId (fields (db w)) := row]> (fields (db w))) ∧
  (∃ row, signatures (db (handler env req w).2)
          = <[nextId (signatures (db w)) := row]> (signatures (db w))).
Proof.
  intros Hev Hsrc. rewrite (handler_landing env req session w Hev Hsrc).
  pattern (provisionOutcome env session (verified (checkoutCompleted session) w)).
  apply provisionOutcome_cases; cbn [fst]; try done.
  intros uid user tpl data _ _ _ _ _.
  cbn [snd called db signed drafted documentDatas documents recipients fields signatures
       verified].
  repeat split; eexists; reflexivity.
Qed.

Lemma acknowledged_checkout_is_provisioned_witness :
  (∃ row, documentDatas (db (handler drawnEnv signedRequest sampleWorld).2)
          = <[nextId (documentDatas (db sampleWorld)) := row]>
              (documentDatas (db sampleWorld))) ∧
  (∃ row, documents (db (handler drawnEnv signedRequest sampleWorld).2)
          = <[nextId (documents (db sampleWorld)) := row]> (documents (db sampleWorld))) ∧
  (∃ row, recipients (db (handler drawnEnv signedRequest sampleWorld).2)
          = <[nextId (recipients (db sampleWorld)) := row]> (recipients (db sampleWorld))) ∧
  (∃ row, fields (db (handler drawnEnv signedRequest sampleWorld).2)
          = <[nextId (fields (db sampleWorld)) := row]> (fields (db sampleWorld))) ∧
  (∃ row, signatures (db (handler drawnEnv signedRequest sampleWorld).2)
          = <[nextId (signatures (db sampleWorld)) := row]> (signatures (db sampleWorld))).
Proof.
  apply (acknowledged_checkout_is_provisioned drawnEnv signedRequest drawnPledge sampleWorld).
  - split; reflexivity.
  - reflexivity.
  - vm_compute. reflexivity.
Defined.

(** * The password form *)

Lemma z_string_min_nil n path s : z_string_min n path s = [] ↔ (n ≤ length s)%nat.
Proof.
  unfold z_string_min. destruct (Nat.ltb_spec (length s) n); split; (done || lia).
Qed.

Lemma ZPasswordFormSchema_nil data :
  ZPasswordFormSchema data = [] ↔
  (6 ≤ length (password data))%nat ∧ repeatedPassword data = password data.
Proof.
  unfold ZPasswordFormSchema. split.
  - intros (Hpw & (Hrep & Heq)%app_eq_nil)%app_eq_nil.
    apply z_string_min_nil in Hpw. case_decide; [|done]. done.
  - intros [Hlen Heq]. rewrite Heq.
    rewrite !(proj2 (z_string_min_nil 6 _ (password data)) Hlen). cbn [app].
    by case_decide.
Qed.

(** X16.  The password schema accepts the form exactly when the password
    has at least 6 code units and the repeated password is the same
    string; the length demanded of the repeated password adds nothing. *)
Theorem password_schema_accepts data :
  ZPasswordFormSchema data = [] ↔
  (6 ≤ length (password data))%nat ∧ repeatedPassword data = password data.
Proof.
  split.
  - intros Hnone. by apply ZPasswordFormSchema_nil.
  - intros Hok. by apply ZPasswordFormSchema_nil.
Qed.

Lemma password_schema_accepts_witness :
  ZPasswordFormSchema
    {| password := units "hunter22"; repeatedPassword := units "hunter22" |} = [].
Proof.
  apply (password_schema_accepts
           {| password := units "hunter22"; repeatedPassword := units "hunter22" |}).
  split; [vm_compute; lia | reflexivity].
Defined.

(** X17.  The form never sends the server a password it did not accept:
    a submit calls the mutation only when the password has at least 6
    code units and was repeated identically, then exactly once and with
    exactly that password; any other submit sends nothing and shows no
    toast. *)
Theorem submit_sends_only_valid_password updatePassword data p :
  ((6 ≤ length (password data))%nat ∧ repeatedPassword data = password data →
     sent (handleSubmit updatePassword data p) = sent p ++ [password data] ∧
     length (toasts (handleSubmit updatePassword data p)) = S (length (toasts p))) ∧
  (¬ ((6 ≤ length (password data))%nat ∧ repeatedPassword data = password data) →
     handleSubmit updatePassword data p = p).
Proof.
  unfold handleSubmit. split.
  - intros Hok%ZPasswordFormSchema_nil. rewrite Hok. unfold onFormSubmit, toast.
    destruct (updatePassword (password data)) as [[[code|] msg|]|];
      try destruct (String.eqb code "BAD_REQUEST");
      cbn [sent toasts]; rewrite length_app; cbn [length]; split; (done || lia).
  - intros Hbad. destruct (ZPasswordFormSchema data) eqn:Hissues; [|done].
    by apply ZPasswordFormSchema_nil in Hissues.
Qed.

Lemma submit_sends_only_valid_password_witness :
  sent (handleSubmit pickyServer
          {| password := units "hunter22"; repeatedPassword := units "hunter22" |} emptyPage)
  = sent emptyPage ++ [units "hunter22"] ∧
  length (toasts (handleSubmit pickyServer
                    {| password := units "hunter22"; repeatedPassword := units "hunter22" |}
                    emptyPage))
  = S (length (toasts emptyPage)).
Proof.
  apply (submit_sends_only_valid_password pickyServer
           {| password := units "hunter22"; repeatedPassword := units "hunter22" |} emptyPage).
  split; [vm_compute; lia | reflexivity].
Defined.

(** X18.  The callback shows the server's own message only for a tRPC
    client error whose code is BAD_REQUEST.  After any other failure the
    toast carries the fixed "unknown error" text, so that whatever such
    a failure says never reaches the page; and a toast titled "Password
    updated" appears only when the mutation succeeded. *)
Theorem only_bad_request_is_quoted updatePassword data p :
  ∃ t, toasts (onFormSubmit updatePassword data p) = toasts p ++ [t] ∧
       (toast_title t = "Password updated" ↔ updatePassword (password data) = None) ∧
       (t ≠ unknownErrorToast →
        updatePassword (password data) = None ∨
        ∃ message, updatePassword (password data)
                   = Some (TRPCClientError (Some "BAD_REQUEST") message) ∧
                   toast_description t = message).
Proof.
  unfold onFormSubmit, toast.
  destruct (updatePassword (password data)) as [[[code|] msg|]|];
    try destruct (String.eqb_spec code "BAD_REQUEST") as [->|];
    eexists; (split; [reflexivity|]); cbn; split; try done; eauto.
Qed.
